(** * multi-party-sig: Random OT (package [ot]) and ECDSA signatures (package [ecdsa])

    A shallow embedding of the two Go source files of the repository:

    - the three-round Random Oblivious Transfer of package [ot]
      (setup, [RandomOTReceiever], [RandomOTSender]);
    - [Signature.Verify] and [Signature.ToCompactEth] of package [ecdsa]
      (the file is listed twice, with two different bodies of [ToCompactEth];
      both bodies are embedded).

    Conventions of the embedding.

    - A Go [byte] is a [Byte.byte]; byte arithmetic is arithmetic on [Z]
      wrapped to 8 bits ([byte.of_Z], [byte.xor], [byte.and]).
    - A fixed-size array [[params.OTBytes]byte] is a [vec byte OTBytes];
      a slice [[]byte] is a [list byte].
    - A Go function returning [(v, err)] returns a pair [(v, option error)]:
      the value is there on the error path too, as in Go.
    - A method with a pointer receiver that writes fields of its receiver
      takes the receiver struct and returns the updated struct first.
    - [sample.Scalar(rand.Reader, group)] is an explicit argument: the scalar
      that was drawn.
    - The packages [curve], [zksch], [hash], [params] and the libraries
      [blake3] and [safenum] are not part of the embedded files; they are
      interfaces (type classes) here.  Only the ECDSA package mutates a
      scalar in place, so only there scalars live in a store. *)

From Stdlib Require Import ZArith Lia List String.
From coqutil Require Import Byte.
From stdpp Require Import base option list vector gmap.

Local Open Scope Z_scope.

(** Go's [error] values: every error built in the embedded files is an
  [fmt.Errorf] of a constant message. *)
Definition error : Type := string.
Definition Errorf (msg : string) : error := msg.

(** * Bytes *)
Module U8.

Definition zero : byte := Byte.x00.
Definition one : byte := Byte.x01.

(** Unary minus on [uint8]: [-b] wraps modulo 256. *)
Definition neg (b : byte) : byte := byte.of_Z (- byte.unsigned b).

(** [a | b] on [uint8]. *)
Definition or (a b : byte) : byte :=
  byte.of_Z (Z.lor (byte.unsigned a) (byte.unsigned b)).

(** Conversion [byte(n)] of a Go integer. *)
Definition of_int (n : Z) : byte := byte.of_Z n.

(** Equality of bytes is decided on their values. *)
#[global] Instance eq_dec : EqDecision byte := λ a b,
  match decide (byte.unsigned a = byte.unsigned b) with
  | left H => left (byte.unsigned_inj a b H)
  | right H => right (λ E, H (f_equal byte.unsigned E))
  end.

End U8.

(** * [crypto/subtle] *)
Module subtle.

(** [func ConstantTimeByteEq(x, y uint8) int {
       return int((uint32(x^y) - 1) >> 31) }] *)
Definition ConstantTimeByteEq (x y : byte) : Z :=
  Z.shiftr ((byte.unsigned (byte.xor x y) - 1) mod 2 ^ 32) 31.

(** The loop [for i := 0; i < len(x); i++ { v |= x[i] ^ y[i] }]. *)
Fixpoint accumulate (v : byte) (x y : list byte) : byte :=
  match x, y with
  | xi :: x', yi :: y' => accumulate (U8.or v (byte.xor xi yi)) x' y'
  | _, _ => v
  end.

(** [func ConstantTimeCompare(x, y []byte) int]: 0 at once when the
    lengths differ. *)
Definition ConstantTimeCompare (x y : list byte) : Z :=
  if negb (Nat.eqb (length x) (length y)) then 0
  else ConstantTimeByteEq (accumulate U8.zero x y) U8.zero.

End subtle.

(** * [safenum.Choice]

  [type Choice byte], documented as always 0 or 1. *)
Module safenum.

Definition Choice : Type := bool.

(** The conversion [byte(c)]. *)
Definition to_byte (c : Choice) : byte := if c then U8.one else U8.zero.

End safenum.

(** * The [curve] interfaces

  [curve.Curve], [curve.Scalar] and [curve.Point] are interfaces of a
  package outside the embedded files.  The class lists the methods the
  embedded code calls.  [Negate], [Invert] and [Set] of a scalar write
  their receiver in Go; the class gives the value they leave there. *)
Module curve.

Class Curve : Type := {
  Scalar : Type;
  Point : Type;
  (** [group.NewScalar()], [group.NewPoint()] *)
  NewScalar : Scalar;
  NewPoint : Point;
  (** [curve.FromHash(group, h)] *)
  FromHash : list byte → Scalar;
  (** scalar methods *)
  Invert : Scalar → Scalar;
  Negate : Scalar → Scalar;
  Act : Scalar → Point → Point;
  ActOnBase : Scalar → Point;
  Bytes : Scalar → list byte;
  IsOverHalfOrder : Scalar → bool;
  (** point methods *)
  Add : Point → Point → Point;
  Sub : Point → Point → Point;
  Equal : Point → Point → bool;
  XScalar : Point → Scalar;
  XBytes : Point → list byte;
  IsOddYBit : Point → Z;
  (** [p.MarshalBinary() ([]byte, error)] *)
  MarshalBinary : Point → list byte * option error;
  (** [p.UnmarshalBinary(data) error] overwrites [p]: the point left in
      the receiver, and the error. *)
  UnmarshalBinary : Point → list byte → Point * option error
}.

(** The part of the group contract the protocol relies on. *)
Class Laws (C : Curve) : Prop := {
  Equal_eq : ∀ P Q : Point, Equal P Q = true ↔ P = Q;
  Act_ActOnBase : ∀ a b : Scalar, Act a (ActOnBase b) = Act b (ActOnBase a);
  Act_Add : ∀ (s : Scalar) (P Q : Point), Act s (Add P Q) = Add (Act s P) (Act s Q);
  Sub_Add : ∀ P Q : Point, Sub (Add P Q) Q = P
}.

End curve.

Export curve(Curve, Scalar, Point).

(** * [blake3]

  The keyed hasher as the protocol uses it: [NewKeyed], [Write], [Reset]
  and [Digest().Read].  The extendable output of BLAKE3 itself is the
  parameter [xof key input i], the [i]-th output byte. *)
Module blake3.

Class XOF : Type := xof : list byte → list byte → nat → byte.

Record Hasher : Type := { key : list byte; absorbed : list byte }.

(** [blake3.NewKeyed(key)] fails unless the key has 32 bytes. *)
Definition NewKeyed (k : list byte) : option Hasher * option error :=
  if Nat.eqb (length k) 32
  then (Some {| key := k; absorbed := [] |}, None)
  else (None, Some (Errorf "invalid key size")).

Definition Write (p : list byte) (h : Hasher) : Hasher :=
  {| key := key h; absorbed := absorbed h ++ p |}.

Definition Reset (h : Hasher) : Hasher :=
  {| key := key h; absorbed := [] |}.

(** [h.Digest().Read(buf[:])] for a buffer of [n] bytes: the first [n]
    output bytes for what was absorbed.  The hasher is left as it is. *)
Definition Digest_Read `{XOF} (h : Hasher) (n : nat) : vec byte n :=
  fun_to_vec (λ i : fin n, xof (key h) (absorbed h) (fin_to_nat i)).

End blake3.

(** * [params], [hash] and [zksch] *)
Module params.
Class Params : Type := OTBytes : nat.
End params.
Export params(OTBytes).

Module zksch.

(** [hash.Hash] (the transcript hash of the setup) and [zksch.Proof],
    with [zksch.NewProof(hash, public, private, nil)] (the commitment
    scalar it draws is the last argument) and
    [proof.Verify(hash, public, nil)]. *)
Class Sch (C : Curve) : Type := {
  Hash : Type;
  Proof : Type;
  NewProof : Hash → Point → Scalar → Scalar → Proof;
  Verify : Proof → Hash → Point → bool
}.

End zksch.

(** * Package [ot] *)
Module ot.
Section ot.
Context {crv : Curve} {bx : blake3.XOF} {par : params.Params} {sch : zksch.Sch crv}.
Import curve.

Abbreviation OTArray := (vec byte OTBytes).

(** The zero value of [[params.OTBytes]byte]. *)
Definition zeroArray : OTArray := vreplicate OTBytes U8.zero.

(** ** Setup *)

Record RandomOTSetupSendMessage : Type := {
  B : Point;
  BProof : zksch.Proof
}.

Record RandomOTSendSetup : Type := {
  ss_b : Scalar;      (* field [b] *)
  ss_B : Point;       (* field [_B] *)
  ss_bB : Point       (* field [_bB] *)
}.

(** [RandomOTSetupSend(hash, group)]; [b] is the scalar drawn by
    [sample.Scalar], [k] the one drawn inside [zksch.NewProof]. *)
Definition RandomOTSetupSend (hash : zksch.Hash) (b k : Scalar)
  : RandomOTSetupSendMessage * RandomOTSendSetup :=
  let B := ActOnBase b in
  let BProof := zksch.NewProof hash B b k in
  ({| B := B; BProof := BProof |},
   {| ss_B := B; ss_b := b; ss_bB := Act b B |}).

Record RandomOTReceiveSetup : Type := {
  rs_B : Point        (* field [_B] *)
}.

(** [RandomOTSetupReceive(hash, msg)]: the setup pointer is [nil] ([None])
    on the error path. *)
Definition RandomOTSetupReceive (hash : zksch.Hash) (msg : RandomOTSetupSendMessage)
  : option RandomOTReceiveSetup * option error :=
  if negb (zksch.Verify (BProof msg) hash (B msg)) then
    (None, Some (Errorf "RandomOTSetupReceive: Schnorr proof failed to verify"))
  else
    (Some {| rs_B := B msg |}, None).

(** ** Receiver *)

Record RandomOTReceiever : Type := {
  rcv_hash : blake3.Hasher;            (* field [hash] *)
  rcv_choice : safenum.Choice;         (* field [choice] *)
  rcv_B : Point;                       (* field [_B] *)
  rcv_randChoice : OTArray;            (* field [randChoice] *)
  rcv_receivedChallenge : OTArray;     (* field [receivedChallenge] *)
  rcv_hh_randChoice : OTArray          (* field [hh_randChoice] *)
}.

Definition rcv_set_hash (h : blake3.Hasher) (r : RandomOTReceiever) : RandomOTReceiever :=
  {| rcv_hash := h; rcv_choice := rcv_choice r; rcv_B := rcv_B r;
     rcv_randChoice := rcv_randChoice r;
     rcv_receivedChallenge := rcv_receivedChallenge r;
     rcv_hh_randChoice := rcv_hh_randChoice r |}.

Definition rcv_set_randChoice (v : OTArray) (r : RandomOTReceiever) : RandomOTReceiever :=
  {| rcv_hash := rcv_hash r; rcv_choice := rcv_choice r; rcv_B := rcv_B r;
     rcv_randChoice := v;
     rcv_receivedChallenge := rcv_receivedChallenge r;
     rcv_hh_randChoice := rcv_hh_randChoice r |}.

Definition rcv_set_receivedChallenge (v : OTArray) (r : RandomOTReceiever) : RandomOTReceiever :=
  {| rcv_hash := rcv_hash r; rcv_choice := rcv_choice r; rcv_B := rcv_B r;
     rcv_randChoice := rcv_randChoice r;
     rcv_receivedChallenge := v;
     rcv_hh_randChoice := rcv_hh_randChoice r |}.

Definition rcv_set_hh_randChoice (v : OTArray) (r : RandomOTReceiever) : RandomOTReceiever :=
  {| rcv_hash := rcv_hash r; rcv_choice := rcv_choice r; rcv_B := rcv_B r;
     rcv_randChoice := rcv_randChoice r;
     rcv_receivedChallenge := rcv_receivedChallenge r;
     rcv_hh_randChoice := v |}.

(** [NewRandomOTReceiver(nonce, result, choice)] (the field [group] is the
    curve instance itself); [None] is the [panic(err)]
    of a nonce that [blake3.NewKeyed] refuses. *)
Definition NewRandomOTReceiver (nonce : list byte) (result : RandomOTReceiveSetup)
    (choice : safenum.Choice) : option RandomOTReceiever :=
  match blake3.NewKeyed nonce with
  | (Some h, None) =>
      Some {| rcv_hash := h; rcv_choice := choice; rcv_B := rs_B result;
              rcv_randChoice := zeroArray;
              rcv_receivedChallenge := zeroArray;
              rcv_hh_randChoice := zeroArray |}
  | _ => None
  end.

Record RandomOTReceiveRound1Message : Type := { ABytes : list byte }.

(** The loop of the receiver's [Round1]:
    [for i := 0; i < len(x) && i < len(y); i++ { x[i] ^= mask & (x[i] ^ y[i]) }]. *)
Fixpoint selectBytes (mask : byte) (x y : list byte) : list byte :=
  match x, y with
  | xi :: x', yi :: y' =>
      byte.xor xi (byte.and mask (byte.xor xi yi)) :: selectBytes mask x' y'
  | _, _ => x
  end.

Definition RandomOTReceiever_Round1 (a : Scalar) (r : RandomOTReceiever)
  : RandomOTReceiever * (RandomOTReceiveRound1Message * option error) :=
  let _A := ActOnBase a in
  let '(outABytes, err) := MarshalBinary _A in
  match err with
  | Some e => (r, ({| ABytes := outABytes |}, Some e))
  | None =>
  let _A := Add _A (rcv_B r) in
  let '(_APlusBBytes, err) := MarshalBinary _A in
  match err with
  | Some e => (r, ({| ABytes := outABytes |}, Some e))
  | None =>
  let mask := U8.neg (safenum.to_byte (rcv_choice r)) in
  let outABytes := selectBytes mask outABytes _APlusBBytes in
  let '(abBytes, err) := MarshalBinary (Act a (rcv_B r)) in
  match err with
  | Some e => (r, ({| ABytes := outABytes |}, Some e))
  | None =>
  let r := rcv_set_hash (blake3.Write abBytes (rcv_hash r)) r in
  let r := rcv_set_randChoice (blake3.Digest_Read (rcv_hash r) OTBytes) r in
  (r, ({| ABytes := outABytes |}, None))
  end end end.

Record RandomOTSendRound1Message : Type := { Challenge : OTArray }.
Record RandomOTReceiveRound2Message : Type := { Response : OTArray }.

Definition RandomOTReceiever_Round2 (msg : RandomOTSendRound1Message) (r : RandomOTReceiever)
  : RandomOTReceiever * RandomOTReceiveRound2Message :=
  let r := rcv_set_receivedChallenge (Challenge msg) r in
  let r := rcv_set_hash (blake3.Reset (rcv_hash r)) r in
  let r := rcv_set_hash (blake3.Write (vec_to_list (rcv_randChoice r)) (rcv_hash r)) r in
  let outResponse := blake3.Digest_Read (rcv_hash r) OTBytes in
  let r := rcv_set_hash (blake3.Reset (rcv_hash r)) r in
  let r := rcv_set_hash (blake3.Write (vec_to_list outResponse) (rcv_hash r)) r in
  let outResponse := blake3.Digest_Read (rcv_hash r) OTBytes in
  let r := rcv_set_hh_randChoice outResponse r in
  let mask := U8.neg (safenum.to_byte (rcv_choice r)) in
  let outResponse :=
    vzip_with (λ x c, byte.xor x (byte.and mask c)) outResponse (Challenge msg) in
  (r, {| Response := outResponse |}).

Record RandomOTSendRound2Message : Type := {
  Decommit0 : OTArray;
  Decommit1 : OTArray
}.

Definition RandomOTReceiever_Round3 (msg : RandomOTSendRound2Message) (r : RandomOTReceiever)
  : RandomOTReceiever * (OTArray * option error) :=
  let r := rcv_set_hash (blake3.Reset (rcv_hash r)) r in
  let r := rcv_set_hash (blake3.Write (vec_to_list (Decommit0 msg)) (rcv_hash r)) r in
  let h_decommit0 := blake3.Digest_Read (rcv_hash r) OTBytes in
  let r := rcv_set_hash (blake3.Reset (rcv_hash r)) r in
  let r := rcv_set_hash (blake3.Write (vec_to_list (Decommit1 msg)) (rcv_hash r)) r in
  let h_decommit1 := blake3.Digest_Read (rcv_hash r) OTBytes in
  let actualChallenge := vzip_with byte.xor h_decommit0 h_decommit1 in
  if negb (subtle.ConstantTimeCompare (vec_to_list (rcv_receivedChallenge r))
             (vec_to_list actualChallenge) =? 1) then
    (r, (rcv_randChoice r, Some (Errorf "RandomOTReceive Round 3: incorrect decommitment")))
  else
  let mask := U8.neg (safenum.to_byte (rcv_choice r)) in
  let h_decommitChoice :=
    vzip_with (λ x y, byte.xor x (byte.and mask (byte.xor x y))) h_decommit0 h_decommit1 in
  if negb (subtle.ConstantTimeCompare (vec_to_list h_decommitChoice)
             (vec_to_list (rcv_hh_randChoice r)) =? 1) then
    (r, (rcv_randChoice r, Some (Errorf "RandomOTReceive Round 3: incorrect decommitment")))
  else
    (r, (rcv_randChoice r, None)).

(** ** Sender *)

Record RandomOTSender : Type := {
  snd_hash : blake3.Hasher;     (* field [hash] *)
  snd_b : Scalar;               (* field [b] *)
  snd_B : Point;                (* field [_B] *)
  snd_bB : Point;               (* field [_bB] *)
  snd_rand0 : OTArray;          (* field [rand0] *)
  snd_rand1 : OTArray;          (* field [rand1] *)
  snd_decommit0 : OTArray;      (* field [decommit0] *)
  snd_decommit1 : OTArray;      (* field [decommit1] *)
  snd_h_decommit0 : OTArray     (* field [h_decommit0] *)
}.

Definition snd_set_hash (h : blake3.Hasher) (r : RandomOTSender) : RandomOTSender :=
  {| snd_hash := h; snd_b := snd_b r; snd_B := snd_B r; snd_bB := snd_bB r;
     snd_rand0 := snd_rand0 r; snd_rand1 := snd_rand1 r;
     snd_decommit0 := snd_decommit0 r; snd_decommit1 := snd_decommit1 r;
     snd_h_decommit0 := snd_h_decommit0 r |}.

Definition snd_set_rand0 (v : OTArray) (r : RandomOTSender) : RandomOTSender :=
  {| snd_hash := snd_hash r; snd_b := snd_b r; snd_B := snd_B r; snd_bB := snd_bB r;
     snd_rand0 := v; snd_rand1 := snd_rand1 r;
     snd_decommit0 := snd_decommit0 r; snd_decommit1 := snd_decommit1 r;
     snd_h_decommit0 := snd_h_decommit0 r |}.

Definition snd_set_rand1 (v : OTArray) (r : RandomOTSender) : RandomOTSender :=
  {| snd_hash := snd_hash r; snd_b := snd_b r; snd_B := snd_B r; snd_bB := snd_bB r;
     snd_rand0 := snd_rand0 r; snd_rand1 := v;
     snd_decommit0 := snd_decommit0 r; snd_decommit1 := snd_decommit1 r;
     snd_h_decommit0 := snd_h_decommit0 r |}.

Definition snd_set_decommit0 (v : OTArray) (r : RandomOTSender) : RandomOTSender :=
  {| snd_hash := snd_hash r; snd_b := snd_b r; snd_B := snd_B r; snd_bB := snd_bB r;
     snd_rand0 := snd_rand0 r; snd_rand1 := snd_rand1 r;
     snd_decommit0 := v; snd_decommit1 := snd_decommit1 r;
     snd_h_decommit0 := snd_h_decommit0 r |}.

Definition snd_set_decommit1 (v : OTArray) (r : RandomOTSender) : RandomOTSender :=
  {| snd_hash := snd_hash r; snd_b := snd_b r; snd_B := snd_B r; snd_bB := snd_bB r;
     snd_rand0 := snd_rand0 r; snd_rand1 := snd_rand1 r;
     snd_decommit0 := snd_decommit0 r; snd_decommit1 := v;
     snd_h_decommit0 := snd_h_decommit0 r |}.

Definition snd_set_h_decommit0 (v : OTArray) (r : RandomOTSender) : RandomOTSender :=
  {| snd_hash := snd_hash r; snd_b := snd_b r; snd_B := snd_B r; snd_bB := snd_bB r;
     snd_rand0 := snd_rand0 r; snd_rand1 := snd_rand1 r;
     snd_decommit0 := snd_decommit0 r; snd_decommit1 := snd_decommit1 r;
     snd_h_decommit0 := v |}.

(** [NewRandomOTSender(nonce, result)]; [None] is the [panic(err)]. *)
Definition NewRandomOTSender (nonce : list byte) (result : RandomOTSendSetup)
  : option RandomOTSender :=
  match blake3.NewKeyed nonce with
  | (Some h, None) =>
      Some {| snd_hash := h; snd_b := ss_b result; snd_B := ss_B result;
              snd_bB := ss_bB result;
              snd_rand0 := zeroArray; snd_rand1 := zeroArray;
              snd_decommit0 := zeroArray; snd_decommit1 := zeroArray;
              snd_h_decommit0 := zeroArray |}
  | _ => None
  end.

Definition RandomOTSender_Round1 (msg : RandomOTReceiveRound1Message) (r : RandomOTSender)
  : RandomOTSender * (RandomOTSendRound1Message * option error) :=
  let _A := NewPoint in
  let '(_A, err) := UnmarshalBinary _A (ABytes msg) in
  match err with
  | Some e => (r, ({| Challenge := zeroArray |}, Some e))
  | None =>
  let bA := Act (snd_b r) _A in
  let r := snd_set_hash (blake3.Reset (snd_hash r)) r in
  let '(bABytes, err) := MarshalBinary bA in
  match err with
  | Some e => (r, ({| Challenge := zeroArray |}, Some e))
  | None =>
  let r := snd_set_hash (blake3.Write bABytes (snd_hash r)) r in
  let r := snd_set_rand0 (blake3.Digest_Read (snd_hash r) OTBytes) r in
  let r := snd_set_hash (blake3.Reset (snd_hash r)) r in
  let '(bAMinusBBytes, err) := MarshalBinary (Sub bA (snd_bB r)) in
  match err with
  | Some e => (r, ({| Challenge := zeroArray |}, Some e))
  | None =>
  let r := snd_set_hash (blake3.Write bAMinusBBytes (snd_hash r)) r in
  let r := snd_set_rand1 (blake3.Digest_Read (snd_hash r) OTBytes) r in
  let r := snd_set_hash (blake3.Reset (snd_hash r)) r in
  let r := snd_set_hash (blake3.Write (vec_to_list (snd_rand0 r)) (snd_hash r)) r in
  let r := snd_set_decommit0 (blake3.Digest_Read (snd_hash r) OTBytes) r in
  let r := snd_set_hash (blake3.Reset (snd_hash r)) r in
  let r := snd_set_hash (blake3.Write (vec_to_list (snd_rand1 r)) (snd_hash r)) r in
  let r := snd_set_decommit1 (blake3.Digest_Read (snd_hash r) OTBytes) r in
  let r := snd_set_hash (blake3.Reset (snd_hash r)) r in
  let r := snd_set_hash (blake3.Write (vec_to_list (snd_decommit0 r)) (snd_hash r)) r in
  let r := snd_set_h_decommit0 (blake3.Digest_Read (snd_hash r) OTBytes) r in
  let r := snd_set_hash (blake3.Reset (snd_hash r)) r in
  let r := snd_set_hash (blake3.Write (vec_to_list (snd_decommit1 r)) (snd_hash r)) r in
  let outChallenge := blake3.Digest_Read (snd_hash r) OTBytes in
  let outChallenge := vzip_with byte.xor outChallenge (snd_h_decommit0 r) in
  (r, ({| Challenge := outChallenge |}, None))
  end end end.

Record RandomOTSendResult : Type := {
  Rand0 : OTArray;
  Rand1 : OTArray
}.

Definition RandomOTSender_Round2 (msg : RandomOTReceiveRound2Message) (r : RandomOTSender)
  : RandomOTSender * (RandomOTSendRound2Message * RandomOTSendResult * option error) :=
  let outMsg := {| Decommit0 := zeroArray; Decommit1 := zeroArray |} in
  let res := {| Rand0 := zeroArray; Rand1 := zeroArray |} in
  if negb (subtle.ConstantTimeCompare (vec_to_list (Response msg))
             (vec_to_list (snd_h_decommit0 r)) =? 1) then
    (r, (outMsg, res, Some (Errorf "RandomOTSender Round2: invalid response")))
  else
    let outMsg := {| Decommit0 := snd_decommit0 r; Decommit1 := snd_decommit1 r |} in
    let res := {| Rand0 := snd_rand0 r; Rand1 := snd_rand1 r |} in
    (r, (outMsg, res, None)).

(** ** The five steps of one execution, in the order the protocol fixes:
    Receiver.Round1, Sender.Round1, Receiver.Round2, Sender.Round2,
    Receiver.Round3; each message is handed over as it was produced and
    the first error ends the run. *)
Record Execution : Type := {
  ex_receiver : RandomOTReceiever;
  ex_sender : RandomOTSender;
  ex_response : RandomOTReceiveRound2Message;
  ex_result : RandomOTSendResult;
  ex_pad : OTArray
}.

Definition execute (a : Scalar) (r : RandomOTReceiever) (s : RandomOTSender)
  : Execution + error :=
  let '(r, (msgR1, err)) := RandomOTReceiever_Round1 a r in
  match err with Some e => inr e | None =>
  let '(s, (msgS1, err)) := RandomOTSender_Round1 msgR1 s in
  match err with Some e => inr e | None =>
  let '(r, msgR2) := RandomOTReceiever_Round2 msgS1 r in
  let '(s, (msgS2, res, err)) := RandomOTSender_Round2 msgR2 s in
  match err with Some e => inr e | None =>
  let '(r, (pad, err)) := RandomOTReceiever_Round3 msgS2 r in
  match err with Some e => inr e | None =>
  inl {| ex_receiver := r; ex_sender := s; ex_response := msgR2;
         ex_result := res; ex_pad := pad |}
  end end end end.

End ot.
End ot.

(** * Package [ecdsa] *)
Module ecdsa.
Section ecdsa.
Context {crv : Curve}.
Import curve.

Definition compactSigSize : nat := 65.

(** ** Scalars behind pointers

    A [curve.Scalar] held in a struct is a pointer: [Set], [Invert] and
    [Negate] overwrite the scalar it points to and return the receiver.
    The store maps each live pointer to its scalar; a computation [M A]
    runs on a store and yields a value and the store it leaves, or [None]
    when it dereferences a pointer that is not there (a nil dereference
    panics). *)
Definition ref : Type := positive.

Definition M (A : Type) : Type := gmap ref Scalar → option (A * gmap ref Scalar).

#[export] Instance M_ret : MRet M := λ A a σ, Some (a, σ).
#[export] Instance M_bind : MBind M := λ A B f m σ,
  match m σ with
  | Some (a, σ') => f a σ'
  | None => None
  end.

Definition load (p : ref) : M Scalar := λ σ,
  match σ !! p with
  | Some s => Some (s, σ)
  | None => None
  end.

Definition store (p : ref) (s : Scalar) : M unit := λ σ, Some (tt, <[p := s]> σ).

(** [group.NewScalar()]: a pointer that was not live, to a zero scalar. *)
Definition Curve_NewScalar : M ref := λ σ,
  let p := fresh (dom σ) in Some (p, <[p := NewScalar]> σ).

(** [p.Set(q)], [p.Invert()], [p.Negate()]: in place, returning [p]. *)
Definition Scalar_Set (p q : ref) : M ref :=
  s ← load q; _ ← load p; _ ← store p s; mret p.

Definition Scalar_Invert (p : ref) : M ref :=
  s ← load p; _ ← store p (Invert s); mret p.

Definition Scalar_Negate (p : ref) : M ref :=
  s ← load p; _ ← store p (Negate s); mret p.

(** The reading methods, through the pointer. *)
Definition Scalar_Act (p : ref) (Q : Point) : M Point :=
  s ← load p; mret (Act s Q).

Definition Scalar_Bytes (p : ref) : M (list byte) :=
  s ← load p; mret (Bytes s).

Definition Scalar_IsOverHalfOrder (p : ref) : M bool :=
  s ← load p; mret (IsOverHalfOrder s).

(** ** Signatures *)
Record Signature : Type := {
  sig_R : Point;      (* field [R] *)
  sig_S : ref         (* field [S] *)
}.

(** [func (sig Signature) Verify(X curve.Point, hash []byte) bool] *)
Definition Verify (sig : Signature) (X : Point) (hash : list byte) : M bool :=
  let m := FromHash hash in
  p ← Curve_NewScalar;
  p ← Scalar_Set p (sig_S sig);
  sInv ← Scalar_Invert p;
  let mG := ActOnBase m in
  let r := XScalar (sig_R sig) in
  let rX := Act r X in
  let R2 := Add mG rX in
  R2 ← Scalar_Act sInv R2;
  mret (Equal R2 (sig_R sig)).

(** Go's [copy(dst[lo:hi], src)]: as many bytes as the shorter of the two
    holds, written at [lo]. *)
Definition copy (dst : list byte) (lo hi : nat) (src : list byte) : list byte :=
  let n := Nat.min (hi - lo) (length src) in
  take lo dst ++ take n src ++ drop (lo + n) dst.

(** [Signature.ToCompactEth] as the first listing of the file has it. *)
Definition ToCompactEth_1 (sig : Signature) : M (list byte) :=
  let b := replicate compactSigSize U8.zero in
  let bytesR := XBytes (sig_R sig) in
  bytesS ← Scalar_Bytes (sig_S sig);
  let b := copy b 0 32 bytesR in
  let b := copy b 32 64 bytesS in
  let recoveryID := U8.of_int (IsOddYBit (sig_R sig)) in
  over ← Scalar_IsOverHalfOrder (sig_S sig);
  let recoveryID := if (over : bool) then byte.xor recoveryID U8.one else recoveryID in
  let b := <[64%nat := recoveryID]> b in
  mret b.

(** [Signature.ToCompactEth] as the second listing of the file has it.
    [S := sig.S] copies the pointer, so [S.Negate()] writes the scalar
    the signature points to. *)
Definition ToCompactEth_2 (sig : Signature) : M (list byte) :=
  let b := replicate compactSigSize U8.zero in
  let R := sig_R sig in
  let S := sig_S sig in
  let recoveryID := U8.of_int (IsOddYBit R) in
  recoveryID ←
    (if IsOverHalfOrder (XScalar R) then
       _ ← Scalar_Negate S; mret (byte.xor recoveryID U8.one)
     else mret recoveryID);
  let bytesR := XBytes R in
  bytesS ← Scalar_Bytes S;
  let b := copy b 0 32 bytesR in
  let b := copy b 32 64 bytesS in
  let b := <[64%nat := recoveryID]> b in
  mret b.

End ecdsa.
End ecdsa.

(** * Encodings shared by the concrete curves below *)

(** [n] as [len] bytes, most significant first. *)
Definition bigEndian (len : nat) (n : Z) : list byte :=
  map (λ i : nat, byte.of_Z (n / 256 ^ Z.of_nat (len - 1 - i))) (seq 0 len).

(** The number a big-endian byte string spells. *)
Definition fromBigEndian (bs : list byte) : Z :=
  fold_left (λ acc b, 256 * acc + byte.unsigned b) bs 0.

(** * A small curve: y² = x³ + 7 over the field of 13 elements

    The curve has the shape of secp256k1 and a group of prime order 7,
    generated by G = (7, 5).  A point is held as its index k (the point
    k·G), a scalar as a residue modulo 7; coordinates come from the table.
    It instantiates the [curve] interface with all laws provable by
    enumeration. *)
Module toy.

Inductive Z7 : Type := z0 | z1 | z2 | z3 | z4 | z5 | z6.

Definition to_Z (a : Z7) : Z :=
  match a with
  | z0 => 0 | z1 => 1 | z2 => 2 | z3 => 3 | z4 => 4 | z5 => 5 | z6 => 6
  end.

Definition of_Z (n : Z) : Z7 :=
  match n mod 7 with
  | 0 => z0 | 1 => z1 | 2 => z2 | 3 => z3 | 4 => z4 | 5 => z5 | _ => z6
  end.

Definition add (a b : Z7) : Z7 := of_Z (to_Z a + to_Z b).
Definition sub (a b : Z7) : Z7 := of_Z (to_Z a - to_Z b).
Definition mul (a b : Z7) : Z7 := of_Z (to_Z a * to_Z b).
Definition opp (a : Z7) : Z7 := of_Z (- to_Z a).
(** a⁻¹ = a⁵ modulo 7 (and 0 for 0). *)
Definition inv (a : Z7) : Z7 := of_Z (to_Z a ^ 5).

Definition eqb (a b : Z7) : bool := to_Z a =? to_Z b.

(** Affine coordinates of k·G; the point at infinity is given (0, 0). *)
Definition xCoord (k : Z7) : Z :=
  match k with
  | z0 => 0 | z1 => 7 | z2 => 8 | z3 => 11 | z4 => 11 | z5 => 8 | z6 => 7
  end.

Definition yCoord (k : Z7) : Z :=
  match k with
  | z0 => 0 | z1 => 5 | z2 => 5 | z3 => 8 | z4 => 5 | z5 => 8 | z6 => 8
  end.

(** Compressed encoding: a tag (0 for infinity, else 2 + parity of y) and
    the 32 bytes of x. *)
Definition marshal (k : Z7) : list byte :=
  match k with
  | z0 => byte.of_Z 0 :: bigEndian 32 0
  | _ => byte.of_Z (2 + yCoord k mod 2) :: bigEndian 32 (xCoord k)
  end.

Definition unmarshal (bs : list byte) : option Z7 :=
  List.find (λ k, bool_decide (marshal k = bs)) [z0; z1; z2; z3; z4; z5; z6].

(** Modelled from the spec: package [curve] is not among the embedded
    files; its operations (section 6 of the specification: point Add, Sub
    and Equal, scalar Act, ActOnBase, Invert, Negate and IsOverHalfOrder,
    marshalling, x-coordinate and y-parity) are given on the small curve. *)
#[export] Instance curve : Curve := {|
  curve.Scalar := Z7;
  curve.Point := Z7;
  curve.NewScalar := z0;
  curve.NewPoint := z0;
  curve.FromHash h := of_Z (fromBigEndian h);
  curve.Invert := inv;
  curve.Negate := opp;
  curve.Act s P := mul s P;
  curve.ActOnBase s := s;
  curve.Bytes s := bigEndian 32 (to_Z s);
  curve.IsOverHalfOrder s := 3 <? to_Z s;
  curve.Add := add;
  curve.Sub := sub;
  curve.Equal := eqb;
  curve.XScalar P := of_Z (xCoord P);
  curve.XBytes P := bigEndian 32 (xCoord P);
  curve.IsOddYBit P := yCoord P mod 2;
  curve.MarshalBinary P := (marshal P, None);
  curve.UnmarshalBinary P bs :=
    match unmarshal bs with
    | Some Q => (Q, None)
    | None => (P, Some (Errorf "toy: not a point"))
    end
|}.

(** A stand-in for the keyed hash, deterministic in key and input: output
    byte [i] mixes the bytes of the key and of the input by position, and
    adds 17·[i]. *)
#[export] Instance xof : blake3.XOF := λ key input i,
  byte.of_Z (fold_left (λ acc b, 3 * acc + byte.unsigned b) (key ++ input) 1
             + 17 * Z.of_nat i).

#[export] Instance params : params.Params := 4%nat.

(** Modelled from the spec: package [zksch] is not among the embedded
    files.  Schnorr proofs on the small curve: commitment C = k·G,
    challenge e derived from the transcript and the points, response
    z = k + e·b; accepted when z·G = C + e·B. *)
Definition challenge (hash : list byte) (B C : Z7) : Z7 :=
  of_Z (fromBigEndian (hash ++ marshal B ++ marshal C)).

#[export] Instance sch : zksch.Sch curve := {|
  zksch.Hash := list byte;
  zksch.Proof := Z7 * Z7;
  zksch.NewProof hash B b k :=
    (k, add k (mul (challenge hash B k) b));
  zksch.Verify proof hash B :=
    eqb proof.2 (add proof.1 (mul (challenge hash B proof.1) B))
|}.

(** Concrete inputs on the small curve: a 32-byte nonce, the transcript
    of the setup, the receiver's half of the setup for the sender's key
    b = 2, and the sessions [NewRandomOTReceiver] and [NewRandomOTSender]
    create from them. *)
Definition nonce : list byte := replicate 32 Byte.x2a.
Definition transcript : list byte := [Byte.x63; Byte.x74; Byte.x78].

Definition receiveSetup : ot.RandomOTReceiveSetup := {| ot.rs_B := z2 |}.

Definition receiver0 (c : safenum.Choice) : ot.RandomOTReceiever :=
  {| ot.rcv_hash := {| blake3.key := nonce; blake3.absorbed := [] |};
     ot.rcv_choice := c; ot.rcv_B := z2;
     ot.rcv_randChoice := ot.zeroArray;
     ot.rcv_receivedChallenge := ot.zeroArray;
     ot.rcv_hh_randChoice := ot.zeroArray |}.

Definition sender0 : ot.RandomOTSender :=
  {| ot.snd_hash := {| blake3.key := nonce; blake3.absorbed := [] |};
     ot.snd_b := z2; ot.snd_B := z2; ot.snd_bB := z4;
     ot.snd_rand0 := ot.zeroArray; ot.snd_rand1 := ot.zeroArray;
     ot.snd_decommit0 := ot.zeroArray; ot.snd_decommit1 := ot.zeroArray;
     ot.snd_h_decommit0 := ot.zeroArray |}.

(** A signature on the small curve for the key X = 3·G and the hash 5:
    R = 2·G, whose x-coordinate 8 gives r = 1, and S = 2⁻¹·(5 + 1·3) = 4,
    held at pointer 1. *)
Definition signature : ecdsa.Signature := {| ecdsa.sig_R := z2; ecdsa.sig_S := 1%positive |}.
Definition signatureStore : gmap positive Z7 := {[ 1%positive := z4 ]}.

End toy.

(** * secp256k1 in affine coordinates

    The curve y² = x³ + 7 over the prime field of order [p], with the
    group order [n] and the generator [(Gx, Gy)].  A scalar is its residue
    in [[0, n)], a point is [None] (infinity) or its affine coordinates. *)
Module secp256k1.

Definition p : Z := 0xFFFFFFFFFFFFFFFFFFFFFFFFFFFFFFFFFFFFFFFFFFFFFFFFFFFFFFFEFFFFFC2F.
Definition n : Z := 0xFFFFFFFFFFFFFFFFFFFFFFFFFFFFFFFEBAAEDCE6AF48A03BBFD25E8CD0364141.
Definition Gx : Z := 0x79BE667EF9DCBBAC55A06295CE870B07029BFCDB2DCE28D959F2815B16F81798.
Definition Gy : Z := 0x483ADA7726A3C4655DA4FBFC0E1108A8FD17B448A68554199C47D08FFB10D4B8.

(** Square-and-multiply, most significant bit first. *)
Fixpoint powmod_pos (m a : Z) (e : positive) : Z :=
  match e with
  | xH => a mod m
  | xO e' => let t := powmod_pos m a e' in (t * t) mod m
  | xI e' => let t := powmod_pos m a e' in ((t * t) mod m * a) mod m
  end.

Definition powmod (m a e : Z) : Z :=
  match e with
  | Zpos e' => powmod_pos m a e'
  | _ => 1 mod m
  end.

(** Inverses by Fermat's little theorem. *)
Definition finv (a : Z) : Z := powmod p a (p - 2).
Definition ninv (a : Z) : Z := powmod n a (n - 2).

Definition point : Type := option (Z * Z).

Definition padd (P Q : point) : point :=
  match P, Q with
  | None, _ => Q
  | _, None => P
  | Some (x1, y1), Some (x2, y2) =>
      if x1 =? x2 then
        if (y1 + y2) mod p =? 0 then None
        else
          let l := (3 * x1 * x1 * finv (2 * y1)) mod p in
          let x3 := (l * l - x1 - x2) mod p in
          Some (x3, (l * (x1 - x3) - y1) mod p)
      else
        let l := ((y2 - y1) * finv (x2 - x1)) mod p in
        let x3 := (l * l - x1 - x2) mod p in
        Some (x3, (l * (x1 - x3) - y1) mod p)
  end.

Definition pneg (P : point) : point :=
  match P with
  | None => None
  | Some (x, y) => Some (x, (- y) mod p)
  end.

(** Double-and-add, most significant bit first. *)
Fixpoint pmul_pos (k : positive) (P : point) : point :=
  match k with
  | xH => P
  | xO k' => let Q := pmul_pos k' P in padd Q Q
  | xI k' => let Q := pmul_pos k' P in padd (padd Q Q) P
  end.

Definition pmul (k : Z) (P : point) : point :=
  match k mod n with
  | Zpos k' => pmul_pos k' P
  | _ => None
  end.

Definition peqb (P Q : point) : bool :=
  match P, Q with
  | None, None => true
  | Some (x1, y1), Some (x2, y2) => (x1 =? x2) && (y1 =? y2)
  | _, _ => false
  end.

Definition xOf (P : point) : Z :=
  match P with
  | None => 0
  | Some (x, _) => x
  end.

Definition yOf (P : point) : Z :=
  match P with
  | None => 0
  | Some (_, y) => y
  end.

(** The 33-byte compressed encoding: 2 + parity of y, then x. *)
Definition marshal (P : point) : list byte * option error :=
  match P with
  | None => ([], Some (Errorf "secp256k1: point at infinity"))
  | Some (x, y) => (byte.of_Z (2 + y mod 2) :: bigEndian 32 x, None)
  end.

Definition unmarshal (bs : list byte) : point + error :=
  match bs with
  | tag :: xs =>
      if negb (Nat.eqb (length xs) 32) then inr (Errorf "secp256k1: invalid length")
      else
        let t := byte.unsigned tag in
        let x := fromBigEndian xs in
        if negb ((t =? 2) || (t =? 3)) then inr (Errorf "secp256k1: invalid tag")
        else if p <=? x then inr (Errorf "secp256k1: x coordinate out of range")
        else
          let v := (x * x * x + 7) mod p in
          let y := powmod p v ((p + 1) / 4) in
          if negb ((y * y) mod p =? v) then inr (Errorf "secp256k1: x coordinate not on curve")
          else if y mod 2 =? t - 2 then inl (Some (x, y))
          else inl (Some (x, p - y))
  | [] => inr (Errorf "secp256k1: invalid length")
  end.

(** Modelled from the spec: package [curve] is not among the embedded
    files; its operations (section 6 of the specification) are given by
    the arithmetic of secp256k1: scalars modulo [n], 32-byte big-endian
    [Bytes] and [XBytes], [IsOverHalfOrder s] as n/2 < s, the parity of y,
    and the 33-byte compressed encoding of points. *)
#[export] Instance curve : Curve := {|
  curve.Scalar := Z;
  curve.Point := point;
  curve.NewScalar := 0;
  curve.NewPoint := None;
  curve.FromHash h := fromBigEndian (take 32 h) mod n;
  curve.Invert s := ninv s;
  curve.Negate s := (- s) mod n;
  curve.Act s P := pmul s P;
  curve.ActOnBase s := pmul s (Some (Gx, Gy));
  curve.Bytes s := bigEndian 32 s;
  curve.IsOverHalfOrder s := n / 2 <? s;
  curve.Add := padd;
  curve.Sub P Q := padd P (pneg Q);
  curve.Equal := peqb;
  curve.XScalar P := xOf P mod n;
  curve.XBytes P := bigEndian 32 (xOf P);
  curve.IsOddYBit P := yOf P mod 2;
  curve.MarshalBinary := marshal;
  curve.UnmarshalBinary P bs :=
    match unmarshal bs with
    | inl Q => (Q, None)
    | inr e => (P, Some e)
    end
|}.

(** 2·G, whose x-coordinate is above half the group order. *)
Definition G2 : point :=
  Some (0xC6047F9441ED7D6D3045406E95C07CD85C778E4B8CEF3CA7ABAC09B95C709EE5,
        0x1AE168FEA63DC339A3C58419466CEAEEF7F632653266D0E1236431A950CFE52A).

(** Two signatures, their scalars held at pointer 1: R = G with the high
    scalar S = n - 1, and R = 2·G with the low scalar S = 1. *)
Definition highS_signature : ecdsa.Signature :=
  {| ecdsa.sig_R := Some (Gx, Gy); ecdsa.sig_S := 1%positive |}.
Definition highS_store : gmap positive Z := {[ 1%positive := n - 1 ]}.

Definition lowS_signature : ecdsa.Signature :=
  {| ecdsa.sig_R := G2; ecdsa.sig_S := 1%positive |}.
Definition lowS_store : gmap positive Z := {[ 1%positive := 1 ]}.

End secp256k1.

(** * Vocabulary of the statements about package [ot] *)
Module ot_spec.
Section ot_spec.
Context {crv : Curve} {bx : blake3.XOF} {par : params.Params} {sch : zksch.Sch crv}.
Import curve ot.

(** The keyed hash of one input, as every round computes it:
    [Reset], [Write(x)], [Digest().Read] of [OTBytes] bytes. *)
Definition H (h : blake3.Hasher) (x : list byte) : vec byte OTBytes :=
  blake3.Digest_Read (blake3.Write x (blake3.Reset h)) OTBytes.

(** Bytewise XOR of two arrays. *)
Definition vxor (v w : vec byte OTBytes) : vec byte OTBytes := vzip_with byte.xor v w.

(** [MarshalBinary] returns no error on [Q]. *)
Definition encodes (Q : Point) : Prop := (MarshalBinary Q).2 = None.

(** The encoding of [Q] is read back as [Q]. *)
Definition decodes (Q : Point) : Prop :=
  UnmarshalBinary NewPoint (MarshalBinary Q).1 = (Q, None).

(** The point the receiver transmits in round 1: a·G, or a·G + B. *)
Definition transmitted (a b : Scalar) (c : safenum.Choice) : Point :=
  if c then Add (ActOnBase a) (ActOnBase b) else ActOnBase a.

(** What one execution with the scalars [a] (receiver) and [b] (sender)
    asks of the encoding of points: the five points it marshals are
    encoded without error, the two candidates of round 1 have encodings of
    one length, and the transmitted point is read back. *)
Definition wire_ok (a b : Scalar) (c : safenum.Choice) : Prop :=
  let T := transmitted a b c in
  encodes (ActOnBase a) ∧
  encodes (Add (ActOnBase a) (ActOnBase b)) ∧
  length (MarshalBinary (ActOnBase a)).1
    = length (MarshalBinary (Add (ActOnBase a) (ActOnBase b))).1 ∧
  decodes T ∧
  encodes (Act a (ActOnBase b)) ∧
  encodes (Act b T) ∧
  encodes (Sub (Act b T) (Act b (ActOnBase b))).

End ot_spec.
End ot_spec.

(** * Package [ecdsa]: the constructor *)
Module ecdsa_empty.
Section ecdsa_empty.
Context {crv : Curve}.
Import curve ecdsa.


End ecdsa_empty.
End ecdsa_empty.

(** * Facts about bytes *)
Module U8_facts.

Lemma testbit_high (a : byte) (n : Z) : 8 <= n → Z.testbit (byte.unsigned a) n = false.
Proof.
  intros Hn. rewrite <- (byte.wrap_unsigned a). unfold byte.wrap.
  apply Z.mod_pow2_bits_high. lia.
Qed.

(** A bitwise operation that maps two clear bits to a clear bit stays
    within 8 bits. *)
Lemma wrap_bitwise (f : bool → bool → bool) (op : Z → Z → Z) (a b : byte) :
  f false false = false →
  (∀ x y n, 0 <= n → Z.testbit (op x y) n = f (Z.testbit x n) (Z.testbit y n)) →
  byte.wrap (op (byte.unsigned a) (byte.unsigned b)) = op (byte.unsigned a) (byte.unsigned b).
Proof.
  intros Hf Hop. unfold byte.wrap. apply Z.bits_inj'. intros n Hn.
  destruct (Z.lt_ge_cases n 8) as [Hlt|Hge].
  - apply Z.mod_pow2_bits_low. lia.
  - rewrite Z.mod_pow2_bits_high by lia.
    rewrite Hop by lia. rewrite !testbit_high by lia. now rewrite Hf.
Qed.

Lemma unsigned_xor (a b : byte) :
  byte.unsigned (byte.xor a b) = Z.lxor (byte.unsigned a) (byte.unsigned b).
Proof.
  unfold byte.xor. rewrite byte.unsigned_of_Z.
  apply (wrap_bitwise xorb); [reflexivity|]. intros. apply Z.lxor_spec.
Qed.

Lemma unsigned_and (a b : byte) :
  byte.unsigned (byte.and a b) = Z.land (byte.unsigned a) (byte.unsigned b).
Proof.
  unfold byte.and. rewrite byte.unsigned_of_Z.
  apply (wrap_bitwise andb); [reflexivity|]. intros. apply Z.land_spec.
Qed.

Lemma unsigned_or (a b : byte) :
  byte.unsigned (U8.or a b) = Z.lor (byte.unsigned a) (byte.unsigned b).
Proof.
  unfold U8.or. rewrite byte.unsigned_of_Z.
  apply (wrap_bitwise orb); [reflexivity|]. intros. apply Z.lor_spec.
Qed.

Lemma xor_comm (a b : byte) : byte.xor a b = byte.xor b a.
Proof. apply byte.unsigned_inj. rewrite !unsigned_xor. apply Z.lxor_comm. Qed.

Lemma xor_zero_r (a : byte) : byte.xor a U8.zero = a.
Proof. apply byte.unsigned_inj. rewrite unsigned_xor. apply Z.lxor_0_r. Qed.

Lemma xor_cancel (a b : byte) : byte.xor a (byte.xor a b) = b.
Proof.
  apply byte.unsigned_inj. rewrite !unsigned_xor.
  rewrite <- Z.lxor_assoc, Z.lxor_nilpotent. apply Z.lxor_0_l.
Qed.

Lemma xor_eq_zero (a b : byte) : byte.xor a b = U8.zero ↔ a = b.
Proof.
  split.
  - intros H. apply (f_equal byte.unsigned) in H. rewrite unsigned_xor in H.
    apply byte.unsigned_inj. now apply Z.lxor_eq.
  - intros ->. apply byte.unsigned_inj. rewrite unsigned_xor. apply Z.lxor_nilpotent.
Qed.

Lemma or_eq_zero (a b : byte) : U8.or a b = U8.zero ↔ a = U8.zero ∧ b = U8.zero.
Proof.
  split.
  - intros H. apply (f_equal byte.unsigned) in H. rewrite unsigned_or in H.
    change (byte.unsigned U8.zero) with 0 in H. apply Z.lor_eq_0_iff in H.
    destruct H as [Ha Hb]. split; apply byte.unsigned_inj; assumption.
  - intros [-> ->]. reflexivity.
Qed.

Lemma and_zero_l (b : byte) : byte.and U8.zero b = U8.zero.
Proof. apply byte.unsigned_inj. rewrite unsigned_and. reflexivity. Qed.

Lemma and_ones_l (b : byte) : byte.and Byte.xff b = b.
Proof.
  apply byte.unsigned_inj. rewrite unsigned_and, Z.land_comm.
  change (byte.unsigned Byte.xff) with (Z.ones 8).
  rewrite Z.land_ones by lia. apply byte.wrap_unsigned.
Qed.

(** The mask [-byte(choice)]: all ones for 1, zero for 0. *)
Lemma mask_true : U8.neg (safenum.to_byte true) = Byte.xff.
Proof. reflexivity. Qed.

Lemma mask_false : U8.neg (safenum.to_byte false) = U8.zero.
Proof. reflexivity. Qed.

(** The constant-time select [x ^ (mask & (x ^ y))]. *)
Lemma select_byte (c : safenum.Choice) (x y : byte) :
  byte.xor x (byte.and (U8.neg (safenum.to_byte c)) (byte.xor x y)) = if c then y else x.
Proof.
  destruct c.
  - rewrite mask_true, and_ones_l. apply xor_cancel.
  - rewrite mask_false, and_zero_l. apply xor_zero_r.
Qed.

(** The conditional mask [x ^ (mask & c)]. *)
Lemma mask_byte (c : safenum.Choice) (x y : byte) :
  byte.xor x (byte.and (U8.neg (safenum.to_byte c)) y) = if c then byte.xor x y else x.
Proof.
  destruct c.
  - now rewrite mask_true, and_ones_l.
  - rewrite mask_false, and_zero_l. apply xor_zero_r.
Qed.

End U8_facts.

(** * Facts about [crypto/subtle] *)
Module subtle_facts.
Import subtle.

Lemma ConstantTimeByteEq_spec (x y : byte) :
  ConstantTimeByteEq x y = if decide (x = y) then 1 else 0.
Proof.
  unfold ConstantTimeByteEq. destruct (decide (x = y)) as [->|Hne].
  - replace (byte.xor y y) with U8.zero by (symmetry; now apply U8_facts.xor_eq_zero).
    reflexivity.
  - pose proof (byte.unsigned_range (byte.xor x y)) as Hr.
    assert (byte.unsigned (byte.xor x y) ≠ 0) as Hnz.
    { intros H0. apply Hne, U8_facts.xor_eq_zero, byte.unsigned_inj. exact H0. }
    rewrite Z.mod_small by lia. rewrite Z.shiftr_div_pow2 by lia.
    apply Z.div_small. lia.
Qed.

Lemma accumulate_zero (v : byte) (x y : list byte) :
  length x = length y →
  accumulate v x y = U8.zero ↔ v = U8.zero ∧ x = y.
Proof.
  revert v y. induction x as [|xi x IH]; intros v [|yi y] Hlen; simpl in *; try discriminate.
  - intuition.
  - rewrite IH by congruence. rewrite U8_facts.or_eq_zero, U8_facts.xor_eq_zero.
    split; [intros [[-> ->] ->]|intros [-> [= -> ->]]]; auto.
Qed.

(** [ConstantTimeCompare] returns 1 exactly on equal slices. *)
Lemma ConstantTimeCompare_spec (x y : list byte) :
  (ConstantTimeCompare x y =? 1) = bool_decide (x = y).
Proof.
  unfold ConstantTimeCompare.
  destruct (Nat.eqb (length x) (length y)) eqn:Hlen; cbn [negb].
  - apply Nat.eqb_eq in Hlen. rewrite ConstantTimeByteEq_spec.
    pose proof (accumulate_zero U8.zero x y Hlen) as Hacc.
    destruct (decide (accumulate U8.zero x y = U8.zero)) as [H0|H0].
    + apply Hacc in H0 as [_ ->]. now rewrite bool_decide_eq_true_2.
    + rewrite bool_decide_eq_false_2; [reflexivity|].
      intros ->. apply H0, Hacc. auto.
  - apply Nat.eqb_neq in Hlen. rewrite bool_decide_eq_false_2; [reflexivity|].
    intros ->. now apply Hlen.
Qed.

Lemma ConstantTimeCompare_vec {n : nat} (v w : vec byte n) :
  (ConstantTimeCompare (vec_to_list v) (vec_to_list w) =? 1) = bool_decide (v = w).
Proof.
  rewrite ConstantTimeCompare_spec. apply bool_decide_ext.
  split; [apply vec_to_list_inj2|now intros ->].
Qed.

End subtle_facts.

(** * Facts about package [ot] *)
Module ot_facts.
Section ot_facts.
Context {crv : Curve} {bx : blake3.XOF} {par : params.Params} {sch : zksch.Sch crv}.
Import curve ot ot_spec.

Lemma selectBytes_spec (c : safenum.Choice) (x y : list byte) :
  length x = length y →
  selectBytes (U8.neg (safenum.to_byte c)) x y = if c then y else x.
Proof.
  revert y. induction x as [|xi x IH]; intros [|yi y] Hlen; simpl in Hlen; try discriminate.
  - now destruct c.
  - cbn [selectBytes]. rewrite IH by congruence. rewrite U8_facts.select_byte.
    now destruct c.
Qed.

Lemma vselect_spec {n : nat} (c : safenum.Choice) (v w : vec byte n) :
  vzip_with (λ x y, byte.xor x (byte.and (U8.neg (safenum.to_byte c)) (byte.xor x y))) v w
  = if c then w else v.
Proof.
  apply vec_eq. intros i. rewrite vlookup_zip_with, U8_facts.select_byte. now destruct c.
Qed.

Lemma vmask_spec {n : nat} (c : safenum.Choice) (v w : vec byte n) :
  vzip_with (λ x y, byte.xor x (byte.and (U8.neg (safenum.to_byte c)) y)) v w
  = if c then vzip_with byte.xor v w else v.
Proof.
  apply vec_eq. intros i. rewrite vlookup_zip_with, U8_facts.mask_byte.
  destruct c; [now rewrite vlookup_zip_with|reflexivity].
Qed.

Lemma vxor_comm (v w : vec byte OTBytes) : vxor v w = vxor w v.
Proof.
  apply vec_eq. intros i. unfold vxor. rewrite !vlookup_zip_with. apply U8_facts.xor_comm.
Qed.

Lemma vxor_cancel (v w : vec byte OTBytes) : vxor v (vxor v w) = w.
Proof.
  apply vec_eq. intros i. unfold vxor. rewrite !vlookup_zip_with. apply U8_facts.xor_cancel.
Qed.

(** The oracle only looks at the key of the hasher. *)
Lemma H_key (h h' : blake3.Hasher) (x : list byte) :
  blake3.key h = blake3.key h' → H h x = H h' x.
Proof. unfold H, blake3.Digest_Read. cbn. now intros ->. Qed.

End ot_facts.
End ot_facts.

(** * The rounds, one by one *)
Module ot_rounds.
Section ot_rounds.
Context {crv : Curve} {bx : blake3.XOF} {par : params.Params} {sch : zksch.Sch crv}.
Import curve ot ot_spec ot_facts.

(** Normalisation of the field updates of a session: call-by-need, so that
    the chain of updates of a round is evaluated once. *)
Ltac step_receiver :=
  lazy beta iota zeta delta
    [RandomOTReceiever_Round1 RandomOTReceiever_Round2 RandomOTReceiever_Round3
     rcv_set_hash rcv_set_randChoice rcv_set_receivedChallenge rcv_set_hh_randChoice
     rcv_hash rcv_choice rcv_B rcv_randChoice rcv_receivedChallenge rcv_hh_randChoice
     Challenge Decommit0 Decommit1 H vxor
     blake3.Reset blake3.Write blake3.key blake3.absorbed].

Ltac step_sender :=
  lazy beta iota zeta delta
    [RandomOTSender_Round1 RandomOTSender_Round2
     snd_set_hash snd_set_rand0 snd_set_rand1
     snd_set_decommit0 snd_set_decommit1 snd_set_h_decommit0
     snd_hash snd_b snd_B snd_bB snd_rand0 snd_rand1
     snd_decommit0 snd_decommit1 snd_h_decommit0
     ABytes Response H vxor
     blake3.Reset blake3.Write blake3.key blake3.absorbed].

(** [Round2] of the sender, in closed form. *)
Lemma sender_Round2_eq (msg : RandomOTReceiveRound2Message) (r : RandomOTSender) :
  RandomOTSender_Round2 msg r =
    if bool_decide (Response msg = snd_h_decommit0 r) then
      (r, ({| Decommit0 := snd_decommit0 r; Decommit1 := snd_decommit1 r |},
           {| Rand0 := snd_rand0 r; Rand1 := snd_rand1 r |}, None))
    else
      (r, ({| Decommit0 := zeroArray; Decommit1 := zeroArray |},
           {| Rand0 := zeroArray; Rand1 := zeroArray |},
           Some (Errorf "RandomOTSender Round2: invalid response"))).
Proof.
  unfold RandomOTSender_Round2. rewrite subtle_facts.ConstantTimeCompare_vec.
  now destruct (bool_decide _).
Qed.

(** [Round3] of the receiver, in closed form. *)
Lemma receiver_Round3_eq (msg : RandomOTSendRound2Message) (r : RandomOTReceiever) :
  let h0 := H (rcv_hash r) (vec_to_list (Decommit0 msg)) in
  let h1 := H (rcv_hash r) (vec_to_list (Decommit1 msg)) in
  let r' := rcv_set_hash (blake3.Write (vec_to_list (Decommit1 msg))
                            (blake3.Reset (rcv_hash r))) r in
  RandomOTReceiever_Round3 msg r =
    if bool_decide (rcv_receivedChallenge r = vxor h0 h1)
       && bool_decide ((if rcv_choice r then h1 else h0) = rcv_hh_randChoice r)
    then (r', (rcv_randChoice r, None))
    else (r', (rcv_randChoice r,
               Some (Errorf "RandomOTReceive Round 3: incorrect decommitment"))).
Proof.
  destruct r as [[k ab] c B0 rc ch hh], msg as [d0 d1].
  step_receiver.
  rewrite !subtle_facts.ConstantTimeCompare_vec, vselect_spec.
  destruct (bool_decide (ch = _)); cbn [negb andb]; [|reflexivity].
  now destruct (bool_decide _).
Qed.


(** [Round1] of the receiver when the three points are encoded. *)
Lemma receiver_Round1_ok (a : Scalar) (r : RandomOTReceiever) :
  encodes (ActOnBase a) →
  encodes (Add (ActOnBase a) (rcv_B r)) →
  encodes (Act a (rcv_B r)) →
  let h := blake3.Write (MarshalBinary (Act a (rcv_B r))).1 (rcv_hash r) in
  RandomOTReceiever_Round1 a r =
    (rcv_set_randChoice (blake3.Digest_Read h OTBytes) (rcv_set_hash h r),
     ({| ABytes := selectBytes (U8.neg (safenum.to_byte (rcv_choice r)))
                     (MarshalBinary (ActOnBase a)).1
                     (MarshalBinary (Add (ActOnBase a) (rcv_B r))).1 |}, None)).
Proof.
  unfold encodes. intros HA HAB HK.
  destruct r as [[k ab] c B0 rc ch hh].
  cbn [rcv_B rcv_hash rcv_choice] in *.
  destruct (MarshalBinary (ActOnBase a)) as [bsA eA] eqn:EA.
  destruct (MarshalBinary (Add (ActOnBase a) B0)) as [bsAB eAB] eqn:EAB.
  destruct (MarshalBinary (Act a B0)) as [bsK eK] eqn:EK.
  cbn [snd] in HA, HAB, HK. subst eA eAB eK.
  step_receiver. rewrite EA. lazy beta iota. rewrite EAB. lazy beta iota.
  rewrite EK. reflexivity.
Qed.

(** [Round1] of the sender when the message decodes to [T] and the two
    pad points are encoded. *)
Lemma sender_Round1_ok (msg : RandomOTReceiveRound1Message) (r : RandomOTSender) (T : Point) :
  UnmarshalBinary NewPoint (ABytes msg) = (T, None) →
  encodes (Act (snd_b r) T) →
  encodes (Sub (Act (snd_b r) T) (snd_bB r)) →
  let h := snd_hash r in
  let rand0 := H h (MarshalBinary (Act (snd_b r) T)).1 in
  let rand1 := H h (MarshalBinary (Sub (Act (snd_b r) T) (snd_bB r))).1 in
  let decommit0 := H h (vec_to_list rand0) in
  let decommit1 := H h (vec_to_list rand1) in
  let h_decommit0 := H h (vec_to_list decommit0) in
  RandomOTSender_Round1 msg r =
    ({| snd_hash := blake3.Write (vec_to_list decommit1) (blake3.Reset h);
        snd_b := snd_b r; snd_B := snd_B r; snd_bB := snd_bB r;
        snd_rand0 := rand0; snd_rand1 := rand1;
        snd_decommit0 := decommit0; snd_decommit1 := decommit1;
        snd_h_decommit0 := h_decommit0 |},
     ({| Challenge := vxor (H h (vec_to_list decommit1)) h_decommit0 |}, None)).
Proof.
  unfold encodes. intros HT HbA HbAB.
  destruct r as [[k ab] b0 B0 bB0 ? ? ? ? ?], msg as [bs].
  cbn [snd_b snd_bB snd_hash ABytes] in *.
  destruct (MarshalBinary (Act b0 T)) as [bs0 e0] eqn:E0.
  destruct (MarshalBinary (Sub (Act b0 T) bB0)) as [bs1 e1] eqn:E1.
  cbn [snd] in HbA, HbAB. subst e0 e1.
  step_sender. rewrite HT. lazy beta iota. rewrite E0. lazy beta iota.
  rewrite E1. reflexivity.
Qed.

(** [Round2] of the receiver, in closed form. *)
Lemma receiver_Round2_eq (msg : RandomOTSendRound1Message) (r : RandomOTReceiever) :
  let hh := H (rcv_hash r) (vec_to_list (H (rcv_hash r) (vec_to_list (rcv_randChoice r)))) in
  RandomOTReceiever_Round2 msg r =
    ({| rcv_hash := blake3.Write
                      (vec_to_list (H (rcv_hash r) (vec_to_list (rcv_randChoice r))))
                      (blake3.Reset (rcv_hash r));
        rcv_choice := rcv_choice r; rcv_B := rcv_B r;
        rcv_randChoice := rcv_randChoice r;
        rcv_receivedChallenge := Challenge msg;
        rcv_hh_randChoice := hh |},
     {| Response := if rcv_choice r then vxor hh (Challenge msg) else hh |}).
Proof.
  destruct r as [[k ab] c B0 rc ch hh0], msg as [chal].
  step_receiver. rewrite vmask_spec. reflexivity.
Qed.

End ot_rounds.
End ot_rounds.

(** * Error handling of the rounds and of the setup *)
Module ot_errors.
Section ot_errors.
Context {crv : Curve} {bx : blake3.XOF} {par : params.Params} {sch : zksch.Sch crv}.
Import curve ot ot_spec ot_facts ot_rounds.

(** C4.  [Round2] of the sender returns the invalid-response error exactly
    when the received [Response] differs from the stored [h_decommit0], and
    no other error; when it returns no error, the message carries
    [decommit0] and [decommit1] and the result carries [rand0] and [rand1],
    the fields of the session as round 1 left them. *)
Theorem sender_Round2_checks_response
    (msg : RandomOTReceiveRound2Message) (r : RandomOTSender) :
  let '(_, (outMsg, res, err)) := RandomOTSender_Round2 msg r in
  (err ≠ None ↔ Response msg ≠ snd_h_decommit0 r) ∧
  (err = None ∨ err = Some (Errorf "RandomOTSender Round2: invalid response")) ∧
  (err = None →
     outMsg = {| Decommit0 := snd_decommit0 r; Decommit1 := snd_decommit1 r |} ∧
     res = {| Rand0 := snd_rand0 r; Rand1 := snd_rand1 r |}).
Proof.
  rewrite sender_Round2_eq. case_bool_decide as Heq.
  - split; [|split]; [|now left|now intros _]. split; [congruence|intros Hne; now destruct Hne].
  - split; [|split]; [|now right|discriminate]. split; [now intros _|discriminate].
Qed.

(** C8.  When the [Response] does not match [h_decommit0], the message and
    the result that [Round2] of the sender returns next to the error hold
    only zero arrays, and the session is returned as it was. *)
Theorem sender_Round2_failure_reveals_nothing
    (msg : RandomOTReceiveRound2Message) (r : RandomOTSender) :
  Response msg ≠ snd_h_decommit0 r →
  RandomOTSender_Round2 msg r =
    (r, ({| Decommit0 := zeroArray; Decommit1 := zeroArray |},
         {| Rand0 := zeroArray; Rand1 := zeroArray |},
         Some (Errorf "RandomOTSender Round2: invalid response"))).
Proof.
  intros Hne. rewrite sender_Round2_eq. now rewrite bool_decide_eq_false_2.
Qed.

(** C5.  With h0 = H(Decommit0) and h1 = H(Decommit1), [Round3] of the
    receiver returns an error exactly when h0 XOR h1 differs from the
    stored challenge or the hash of the decommitment selected by the choice
    differs from the cached [hh_randChoice]; the error is the same value in
    both cases, and without an error the value returned is [randChoice]. *)
Theorem receiver_Round3_checks_decommitments
    (msg : RandomOTSendRound2Message) (r : RandomOTReceiever) :
  let h0 := H (rcv_hash r) (vec_to_list (Decommit0 msg)) in
  let h1 := H (rcv_hash r) (vec_to_list (Decommit1 msg)) in
  let hChoice :=
    H (rcv_hash r) (vec_to_list (if rcv_choice r then Decommit1 msg else Decommit0 msg)) in
  let '(_, (pad, err)) := RandomOTReceiever_Round3 msg r in
  (err ≠ None ↔ vxor h0 h1 ≠ rcv_receivedChallenge r ∨ hChoice ≠ rcv_hh_randChoice r) ∧
  (err ≠ None → err = Some (Errorf "RandomOTReceive Round 3: incorrect decommitment")) ∧
  (err = None → pad = rcv_randChoice r).
Proof.
  intros h0 h1 hChoice. rewrite receiver_Round3_eq. fold h0 h1.
  assert (hChoice = if rcv_choice r then h1 else h0) as -> by (unfold hChoice; now destruct (rcv_choice r)).
  case_bool_decide as H1; case_bool_decide as H2; cbn [andb];
    (split; [|split]); try done; try (split; [done|]); try tauto.
  - intros [Hx|Hx]; [now destruct Hx|now destruct Hx].
  - split; [intros _|done]. now right.
  - split; [intros _|done]. left. congruence.
  - split; [intros _|done]. left. congruence.
Qed.

(** C9.  The first value [Round3] of the receiver returns is the stored
    [randChoice], with or without an error; and after [Round1] and
    [Round2], whatever the two messages of the sender were, it is the
    [randChoice] that [Round1] left in the session. *)
Theorem receiver_Round3_always_returns_pad :
  (∀ (msg : RandomOTSendRound2Message) (r : RandomOTReceiever),
     (RandomOTReceiever_Round3 msg r).2.1 = rcv_randChoice r) ∧
  (∀ (a : Scalar) (c : RandomOTSendRound1Message) (msg : RandomOTSendRound2Message)
     (r : RandomOTReceiever),
     let r1 := (RandomOTReceiever_Round1 a r).1 in
     let r2 := (RandomOTReceiever_Round2 c r1).1 in
     (RandomOTReceiever_Round3 msg r2).2.1 = rcv_randChoice r1).
Proof.
  assert (∀ msg r, (RandomOTReceiever_Round3 msg r).2.1 = rcv_randChoice r) as H3.
  { intros msg r. rewrite receiver_Round3_eq. now destruct (_ && _). }
  split; [exact H3|]. intros a c msg r r1 r2. rewrite H3. unfold r2.
  now rewrite receiver_Round2_eq.
Qed.

(** C6.  [RandomOTSetupReceive] returns an error exactly when the Schnorr
    proof of the message does not verify against the point [B] of the
    message; otherwise it returns the setup whose only field is that [B]. *)
Theorem RandomOTSetupReceive_checks_proof
    (hash : zksch.Hash) (msg : RandomOTSetupSendMessage) :
  let '(setup, err) := RandomOTSetupReceive hash msg in
  (err ≠ None ↔ zksch.Verify (BProof msg) hash (B msg) = false) ∧
  (err ≠ None → setup = None) ∧
  (err = None → setup = Some {| rs_B := B msg |}).
Proof.
  unfold RandomOTSetupReceive.
  destruct (zksch.Verify (BProof msg) hash (B msg)); cbn [negb].
  - split; [|split]; [|done|done]. split; [done|discriminate].
  - split; [|split]; [|done|discriminate]. split; [done|discriminate].
Qed.

End ot_errors.
End ot_errors.

(** * Honest executions *)
Module ot_honest.
Section ot_honest.
Context {crv : Curve} {bx : blake3.XOF} {par : params.Params} {sch : zksch.Sch crv}.
Context {laws : curve.Laws crv}.
Import curve ot ot_spec ot_facts ot_rounds.

Ltac norm_ot :=
  lazy beta iota zeta delta
    [rcv_set_hash rcv_set_randChoice rcv_set_receivedChallenge rcv_set_hh_randChoice
     rcv_hash rcv_choice rcv_B rcv_randChoice rcv_receivedChallenge rcv_hh_randChoice
     snd_set_hash snd_set_rand0 snd_set_rand1
     snd_set_decommit0 snd_set_decommit1 snd_set_h_decommit0
     snd_hash snd_b snd_B snd_bB snd_rand0 snd_rand1
     snd_decommit0 snd_decommit1 snd_h_decommit0
     ABytes Challenge Response Decommit0 Decommit1 Rand0 Rand1
     H blake3.Reset blake3.Write blake3.key blake3.absorbed app].

(** The point whose hash is the receiver's pad is one of the sender's two
    pad points: the first for choice 0, the second for choice 1. *)
Lemma pad_point (a b : Scalar) (c : safenum.Choice) :
  (if c then Sub (Act b (transmitted a b c)) (Act b (ActOnBase b))
   else Act b (transmitted a b c)) = Act a (ActOnBase b).
Proof.
  destruct c; cbn [transmitted].
  - rewrite Act_Add, Sub_Add. apply Act_ActOnBase.
  - apply Act_ActOnBase.
Qed.

(** The five rounds of an execution between a receiver and a sender that
    were created from one setup (public key b·G) and one key [k] of the
    hasher. *)
Lemma honest_rounds (k ab : list byte) (a b : Scalar) (c : safenum.Choice) (B' : Point)
    (z1 z2 z3 z4 z5 z6 z7 z8 : vec byte OTBytes) :
  let r0 := {| rcv_hash := {| blake3.key := k; blake3.absorbed := [] |};
               rcv_choice := c; rcv_B := ActOnBase b; rcv_randChoice := z1;
               rcv_receivedChallenge := z2; rcv_hh_randChoice := z3 |} in
  let s0 := {| snd_hash := {| blake3.key := k; blake3.absorbed := ab |};
               snd_b := b; snd_B := B'; snd_bB := Act b (ActOnBase b);
               snd_rand0 := z4; snd_rand1 := z5; snd_decommit0 := z6;
               snd_decommit1 := z7; snd_h_decommit0 := z8 |} in
  wire_ok a b c →
  ∃ r1 m1 s1 c1 r2 m2 m3 res r3 pad,
    RandomOTReceiever_Round1 a r0 = (r1, (m1, None)) ∧
    RandomOTSender_Round1 m1 s0 = (s1, (c1, None)) ∧
    RandomOTReceiever_Round2 c1 r1 = (r2, m2) ∧
    RandomOTSender_Round2 m2 s1 = (s1, (m3, res, None)) ∧
    RandomOTReceiever_Round3 m3 r2 = (r3, (pad, None)) ∧
    Response m2 = snd_h_decommit0 s1 ∧
    Response m2 = (if c then vxor (rcv_hh_randChoice r2) (Challenge c1)
                   else rcv_hh_randChoice r2) ∧
    pad = (if c then Rand1 res else Rand0 res).
Proof.
  intros r0 s0 (HA & HAB & Hlen & Hdec & HK & HP0 & HP1).
  pose proof (pad_point a b c) as Hpad.
  set (T := transmitted a b c) in *.
  (* receiver, round 1 *)
  pose proof (receiver_Round1_ok a r0 HA HAB HK) as R1. cbn zeta in R1.
  rewrite selectBytes_spec in R1 by exact Hlen.
  assert ((if rcv_choice r0
           then (MarshalBinary (Add (ActOnBase a) (rcv_B r0))).1
           else (MarshalBinary (ActOnBase a)).1) = (MarshalBinary T).1) as HT
    by (unfold T, transmitted; cbn [rcv_choice rcv_B]; now destruct c).
  rewrite HT in R1. clear HT.
  (* sender, round 1 *)
  pose proof (sender_Round1_ok {| ABytes := (MarshalBinary T).1 |} s0 T Hdec HP0 HP1) as S1.
  cbn zeta in S1.
  subst r0 s0.
  do 10 eexists. split; [exact R1|]. split; [exact S1|].
  split; [exact (receiver_Round2_eq _ _)|].
  clear R1 S1.
  (* the response equals the cached h_decommit0 *)
  match goal with
  | |- _ ∧ _ ∧ ?P ∧ _ => assert P as Hresp
  end.
  { norm_ot. destruct c; norm_ot; rewrite Hpad.
    - apply vxor_cancel.
    - reflexivity. }
  split.
  { rewrite sender_Round2_eq, bool_decide_eq_true_2 by exact Hresp. reflexivity. }
  split.
  { rewrite receiver_Round3_eq. norm_ot.
    rewrite (vxor_comm (blake3.Digest_Read _ _)).
    rewrite bool_decide_eq_true_2 by reflexivity.
    rewrite bool_decide_eq_true_2; [reflexivity|].
    destruct c; norm_ot; rewrite Hpad; reflexivity. }
  split; [exact Hresp|]. split.
  { norm_ot. now destruct c. }
  norm_ot. destruct c; norm_ot; rewrite Hpad; reflexivity.
Qed.



(** The sessions that [NewRandomOTReceiver] and [NewRandomOTSender] create
    from the two halves of one setup and one nonce. *)
Lemma sessions_of_setup (hash : zksch.Hash) (b k : Scalar) (nonce : list byte)
    (choice : safenum.Choice) (rs : RandomOTReceiveSetup)
    (r0 : RandomOTReceiever) (s0 : RandomOTSender) :
  RandomOTSetupReceive hash (RandomOTSetupSend hash b k).1 = (Some rs, None) →
  NewRandomOTReceiver nonce rs choice = Some r0 →
  NewRandomOTSender nonce (RandomOTSetupSend hash b k).2 = Some s0 →
  r0 = {| rcv_hash := {| blake3.key := nonce; blake3.absorbed := [] |};
          rcv_choice := choice; rcv_B := ActOnBase b; rcv_randChoice := zeroArray;
          rcv_receivedChallenge := zeroArray; rcv_hh_randChoice := zeroArray |} ∧
  s0 = {| snd_hash := {| blake3.key := nonce; blake3.absorbed := [] |};
          snd_b := b; snd_B := ActOnBase b; snd_bB := Act b (ActOnBase b);
          snd_rand0 := zeroArray; snd_rand1 := zeroArray; snd_decommit0 := zeroArray;
          snd_decommit1 := zeroArray; snd_h_decommit0 := zeroArray |}.
Proof.
  unfold RandomOTSetupReceive, NewRandomOTReceiver, NewRandomOTSender, blake3.NewKeyed.
  cbn [RandomOTSetupSend fst snd B BProof ss_b ss_B ss_bB].
  destruct (zksch.Verify _ _ _); cbn [negb]; [|discriminate].
  intros [= <-]. cbn [rs_B].
  destruct (Nat.eqb (length nonce) 32); [|discriminate].
  now intros [= <-] [= <-].
Qed.

(** C1.  Take the two halves of one setup (the receiver's half accepted by
    [RandomOTSetupReceive]), a receiver and a sender created from them with
    the same nonce, and points whose encoding works ([wire_ok]).  Then the
    five rounds, each fed the message the other side produced, all return
    without error, and the pad that [Round3] of the receiver returns is
    the sender's [Rand0] for choice 0 and the sender's [Rand1] for
    choice 1. *)
Theorem honest_execution_pad (hash : zksch.Hash) (b k a : Scalar) (nonce : list byte)
    (choice : safenum.Choice) (rs : RandomOTReceiveSetup)
    (r0 : RandomOTReceiever) (s0 : RandomOTSender) :
  RandomOTSetupReceive hash (RandomOTSetupSend hash b k).1 = (Some rs, None) →
  NewRandomOTReceiver nonce rs choice = Some r0 →
  NewRandomOTSender nonce (RandomOTSetupSend hash b k).2 = Some s0 →
  wire_ok a b choice →
  ∃ e : Execution,
    execute a r0 s0 = inl e ∧
    ex_pad e = (if choice then Rand1 (ex_result e) else Rand0 (ex_result e)).
Proof.
  intros Hrs Hr0 Hs0 Hwire.
  destruct (sessions_of_setup _ _ _ _ _ _ _ _ Hrs Hr0 Hs0) as [-> ->].
  destruct (honest_rounds nonce [] a b choice (ActOnBase b)
              zeroArray zeroArray zeroArray zeroArray zeroArray zeroArray
              zeroArray zeroArray Hwire)
    as (r1 & m1 & s1 & c1 & r2 & m2 & m3 & res & r3 & pad & E1 & E2 & E3 & E4 & E5 & _ & _ & Hpad).
  exists {| ex_receiver := r3; ex_sender := s1; ex_response := m2;
            ex_result := res; ex_pad := pad |}.
  split; [|exact Hpad].
  unfold execute. rewrite E1. lazy beta iota. rewrite E2. lazy beta iota.
  rewrite E3. lazy beta iota. rewrite E4. lazy beta iota. rewrite E5. reflexivity.
Qed.

(** C2.  In the same setting the execution reaches round 2, and the
    [Response] that [Round2] of the receiver produces equals the
    [h_decommit0] the sender cached in its [Round1], for both values of
    the choice: it is hh = H(H(randChoice)) itself for choice 0 and
    hh XOR challenge for choice 1; [Round2] of the sender then returns no
    error. *)
Theorem honest_response_is_h_decommit0 (hash : zksch.Hash) (b k a : Scalar)
    (nonce : list byte) (choice : safenum.Choice) (rs : RandomOTReceiveSetup)
    (r0 : RandomOTReceiever) (s0 : RandomOTSender) :
  RandomOTSetupReceive hash (RandomOTSetupSend hash b k).1 = (Some rs, None) →
  NewRandomOTReceiver nonce rs choice = Some r0 →
  NewRandomOTSender nonce (RandomOTSetupSend hash b k).2 = Some s0 →
  wire_ok a b choice →
  ∃ r1 m1 s1 c1 r2 m2,
    RandomOTReceiever_Round1 a r0 = (r1, (m1, None)) ∧
    RandomOTSender_Round1 m1 s0 = (s1, (c1, None)) ∧
    RandomOTReceiever_Round2 c1 r1 = (r2, m2) ∧
    Response m2 = snd_h_decommit0 s1 ∧
    rcv_hh_randChoice r2
      = H (rcv_hash r1) (vec_to_list (H (rcv_hash r1) (vec_to_list (rcv_randChoice r1)))) ∧
    Response m2 = (if choice then vxor (rcv_hh_randChoice r2) (Challenge c1)
                   else rcv_hh_randChoice r2) ∧
    (RandomOTSender_Round2 m2 s1).2.2 = None.
Proof.
  intros Hrs Hr0 Hs0 Hwire.
  destruct (sessions_of_setup _ _ _ _ _ _ _ _ Hrs Hr0 Hs0) as [-> ->].
  destruct (honest_rounds nonce [] a b choice (ActOnBase b)
              zeroArray zeroArray zeroArray zeroArray zeroArray zeroArray
              zeroArray zeroArray Hwire)
    as (r1 & m1 & s1 & c1 & r2 & m2 & m3 & res & r3 & pad & E1 & E2 & E3 & E4 & _ & Hresp & Hform & _).
  exists r1, m1, s1, c1, r2, m2.
  repeat (split; [assumption|]).
  split; [|split; [exact Hform|now rewrite E4]].
  rewrite receiver_Round2_eq in E3. now injection E3 as <- _.
Qed.

End ot_honest.
End ot_honest.

(** * Package [ecdsa] *)
Module ecdsa_facts.
Section ecdsa_facts.
Context {crv : Curve}.
Import curve ecdsa.

Lemma copy_length (dst : list byte) (lo hi : nat) (src : list byte) :
  (hi ≤ length dst)%nat → length (copy dst lo hi src) = length dst.
Proof.
  intros Hhi. unfold copy. rewrite !length_app, !length_take, length_drop. lia.
Qed.

(** The closed form of the first listing: the scalar is written as it is,
    and the store is not touched. *)
Lemma ToCompactEth_1_eq (sig : Signature) (σ : gmap ref Scalar) (s : Scalar) :
  σ !! sig_S sig = Some s →
  ToCompactEth_1 sig σ =
    Some (<[64%nat := if IsOverHalfOrder s
                       then byte.xor (U8.of_int (IsOddYBit (sig_R sig))) U8.one
                       else U8.of_int (IsOddYBit (sig_R sig))]>
            (copy (copy (replicate compactSigSize U8.zero) 0 32 (XBytes (sig_R sig)))
               32 64 (Bytes s)), σ).
Proof.
  intros Hs. unfold ToCompactEth_1, Scalar_Bytes, Scalar_IsOverHalfOrder, load.
  unfold mbind, M_bind, mret, M_ret.
  repeat (rewrite ?Hs; lazy beta iota). reflexivity.
Qed.

(** The closed form of the second listing: when the x-coordinate of R is
    over half the order, the scalar in the store is replaced by its
    negation, and the negation is what gets written. *)
Lemma ToCompactEth_2_eq (sig : Signature) (σ : gmap ref Scalar) (s : Scalar) :
  σ !! sig_S sig = Some s →
  ToCompactEth_2 sig σ =
    if IsOverHalfOrder (XScalar (sig_R sig)) then
      Some (<[64%nat := byte.xor (U8.of_int (IsOddYBit (sig_R sig))) U8.one]>
              (copy (copy (replicate compactSigSize U8.zero) 0 32 (XBytes (sig_R sig)))
                 32 64 (Bytes (Negate s))),
            <[sig_S sig := Negate s]> σ)
    else
      Some (<[64%nat := U8.of_int (IsOddYBit (sig_R sig))]>
              (copy (copy (replicate compactSigSize U8.zero) 0 32 (XBytes (sig_R sig)))
                 32 64 (Bytes s)), σ).
Proof.
  intros Hs. unfold ToCompactEth_2, Scalar_Bytes, Scalar_Negate, load, store.
  unfold mbind, M_bind, mret, M_ret.
  destruct (IsOverHalfOrder (XScalar (sig_R sig))).
  - repeat (rewrite ?Hs, ?lookup_insert_eq; lazy beta iota). reflexivity.
  - repeat (rewrite ?Hs; lazy beta iota). reflexivity.
Qed.

(** Both listings return 65 bytes. *)
Lemma ToCompactEth_length (sig : Signature) (σ σ' : gmap ref Scalar) (out : list byte) :
  ToCompactEth_1 sig σ = Some (out, σ') ∨ ToCompactEth_2 sig σ = Some (out, σ') →
  length out = compactSigSize.
Proof.
  assert (∀ x l1 l2, length (<[64%nat := x]>
            (copy (copy (replicate compactSigSize U8.zero) 0 32 l1) 32 64 l2))
          = compactSigSize) as Hlen.
  { intros x l1 l2. rewrite length_insert, !copy_length; rewrite ?copy_length;
      rewrite ?length_replicate; unfold compactSigSize; lia. }
  destruct (σ !! sig_S sig) as [s|] eqn:Hs.
  - rewrite (ToCompactEth_1_eq _ _ _ Hs), (ToCompactEth_2_eq _ _ _ Hs).
    intros [[= <- _]|H2]; [apply Hlen|].
    destruct (IsOverHalfOrder (XScalar (sig_R sig))); injection H2 as <- _; apply Hlen.
  - unfold ToCompactEth_1, ToCompactEth_2, Scalar_Bytes, Scalar_Negate, load, store.
    unfold mbind, M_bind, mret, M_ret.
    destruct (IsOverHalfOrder (XScalar (sig_R sig)));
      repeat (rewrite ?Hs; lazy beta iota); intros [|]; discriminate.
Qed.

(** The first listing leaves every store as it found it. *)
Lemma ToCompactEth_1_frame (sig : Signature) (σ σ' : gmap ref Scalar) (out : list byte) :
  ToCompactEth_1 sig σ = Some (out, σ') → σ' = σ.
Proof.
  destruct (σ !! sig_S sig) as [s|] eqn:Hs.
  - rewrite (ToCompactEth_1_eq _ _ _ Hs). now intros [= _ <-].
  - unfold ToCompactEth_1, Scalar_Bytes, load. unfold mbind, M_bind. now rewrite Hs.
Qed.

(** C7.  For a signature whose scalar is live in the store, [Verify]
    returns, and it returns [true] exactly when S⁻¹·(m·G + r·X) is the
    point R, where m is the scalar of the hash and r the scalar of the
    x-coordinate of R: the value is [Equal] of that point and R, a function
    of the signature, the key and the hash alone.  The scalar of the
    signature is left as it was. *)
Theorem Verify_spec {laws : curve.Laws crv} (sig : Signature) (X : Point)
    (hash : list byte) (σ : gmap ref Scalar) (s : Scalar) :
  σ !! sig_S sig = Some s →
  let R2 := Act (Invert s) (Add (ActOnBase (FromHash hash)) (Act (XScalar (sig_R sig)) X)) in
  ∃ (ok : bool) (σ' : gmap ref Scalar),
    Verify sig X hash σ = Some (ok, σ') ∧
    (ok = true ↔ R2 = sig_R sig) ∧
    ok = Equal R2 (sig_R sig) ∧
    σ' !! sig_S sig = Some s.
Proof.
  intros Hs R2.
  assert (fresh (dom σ) ≠ sig_S sig) as Hfresh.
  { intros Heq. apply (is_fresh (dom σ)). rewrite Heq. apply elem_of_dom. eauto. }
  exists (Equal R2 (sig_R sig)), (<[fresh (dom σ) := Invert s]> σ).
  split; [|split; [|split]].
  - unfold Verify, Curve_NewScalar, Scalar_Set, Scalar_Invert, Scalar_Act, load, store.
    unfold mbind, M_bind, mret, M_ret.
    repeat (rewrite ?lookup_insert_eq, ?insert_insert_eq;
            rewrite ?(lookup_insert_ne _ _ _ _ Hfresh), ?Hs; lazy beta iota).
    reflexivity.
  - apply Equal_eq.
  - reflexivity.
  - rewrite lookup_insert_ne by exact Hfresh. exact Hs.
Qed.

End ecdsa_facts.
End ecdsa_facts.

(** * The small curve satisfies the group contract *)
Module toy_facts.
Import curve toy.

Lemma laws : curve.Laws toy.curve.
Proof.
  split.
  - intros P Q. destruct P, Q; cbn; split; (reflexivity || discriminate).
  - intros a b. destruct a, b; reflexivity.
  - intros s P Q. destruct s, P, Q; reflexivity.
  - intros P Q. destruct P, Q; reflexivity.
Qed.

End toy_facts.

(** * The statements at concrete inputs, on the small curve *)
Module toy_runs.
Import curve ot ot_spec ecdsa toy.

Lemma honest_execution_pad_toy :
  ∃ e, execute z3 (receiver0 true) sender0 = inl e ∧ ex_pad e = Rand1 (ex_result e).
Proof.
  apply (ot_honest.honest_execution_pad (crv := toy.curve) (bx := toy.xof)
           (par := toy.params) (sch := toy.sch) (laws := toy_facts.laws)
           transcript z2 z3 z3 nonce true receiveSetup (receiver0 true) sender0).
  - reflexivity.
  - reflexivity.
  - reflexivity.
  - repeat split; reflexivity.
Defined.

Lemma honest_response_is_h_decommit0_toy :
  ∃ r1 m1 s1 c1 r2 m2,
    RandomOTReceiever_Round1 z3 (receiver0 true) = (r1, (m1, None)) ∧
    RandomOTSender_Round1 m1 sender0 = (s1, (c1, None)) ∧
    RandomOTReceiever_Round2 c1 r1 = (r2, m2) ∧
    Response m2 = snd_h_decommit0 s1 ∧
    rcv_hh_randChoice r2
      = H (rcv_hash r1) (vec_to_list (H (rcv_hash r1) (vec_to_list (rcv_randChoice r1)))) ∧
    Response m2 = vxor (rcv_hh_randChoice r2) (Challenge c1) ∧
    (RandomOTSender_Round2 m2 s1).2.2 = None.
Proof.
  apply (ot_honest.honest_response_is_h_decommit0 (crv := toy.curve) (bx := toy.xof)
           (par := toy.params) (sch := toy.sch) (laws := toy_facts.laws)
           transcript z2 z3 z3 nonce true receiveSetup (receiver0 true) sender0).
  - reflexivity.
  - reflexivity.
  - reflexivity.
  - repeat split; reflexivity.
Defined.

(** A response of ones against the zero [h_decommit0] of a fresh sender. *)
Lemma sender_Round2_failure_reveals_nothing_toy :
  RandomOTSender_Round2 {| Response := vreplicate OTBytes Byte.x01 |} sender0 =
    (sender0, ({| Decommit0 := zeroArray; Decommit1 := zeroArray |},
               {| Rand0 := zeroArray; Rand1 := zeroArray |},
               Some (Errorf "RandomOTSender Round2: invalid response"))).
Proof.
  apply (ot_errors.sender_Round2_failure_reveals_nothing (crv := toy.curve)
           (par := toy.params)).
  simpl. discriminate.
Defined.

Lemma Verify_spec_toy :
  ∃ (ok : bool) (σ' : gmap positive Z7),
    Verify signature z3 [Byte.x05] signatureStore = Some (ok, σ') ∧
    (ok = true ↔ mul (inv z4) (add z5 (mul z1 z3)) = z2) ∧
    ok = eqb (mul (inv z4) (add z5 (mul z1 z3))) z2 ∧
    σ' !! 1%positive = Some z4.
Proof.
  apply (ecdsa_facts.Verify_spec (crv := toy.curve) (laws := toy_facts.laws)
           signature z3 [Byte.x05] signatureStore z4).
  reflexivity.
Defined.

End toy_runs.

(** * [ToCompactEth] on secp256k1 *)
Module secp256k1_runs.
Import curve ecdsa secp256k1.

(** C3.  Neither listing writes the low form of S.
    First listing, R = G and S = n - 1 (over half the order): bytes
    32..63 are S itself, not its negation 1, although the recovery id has
    the flag added to the parity 0 of G's y.
    Second listing, R = 2·G and S = 1 (not over half the order): the
    x-coordinate of R is over half the order, so S is negated; bytes
    32..63 are n - 1 and the flag is added to the parity 0 of R's y. *)
Theorem ToCompactEth_misses_low_S :
  (IsOverHalfOrder (n - 1) = true ∧
   ∃ out,
     ToCompactEth_1 highS_signature highS_store = Some (out, highS_store) ∧
     length out = 65%nat ∧
     take 32 out = XBytes (Some (Gx, Gy)) ∧
     take 32 (drop 32 out) = Bytes (n - 1) ∧
     take 32 (drop 32 out) ≠ Bytes (Negate (n - 1)) ∧
     U8.of_int (IsOddYBit (Some (Gx, Gy))) = Byte.x00 ∧
     out !! 64%nat = Some Byte.x01) ∧
  (IsOverHalfOrder 1 = false ∧
   IsOverHalfOrder (XScalar G2) = true ∧
   ∃ out σ',
     ToCompactEth_2 lowS_signature lowS_store = Some (out, σ') ∧
     length out = 65%nat ∧
     take 32 out = XBytes G2 ∧
     take 32 (drop 32 out) = Bytes (Negate 1) ∧
     take 32 (drop 32 out) ≠ Bytes 1 ∧
     U8.of_int (IsOddYBit G2) = Byte.x00 ∧
     out !! 64%nat = Some Byte.x01).
Proof.
  split.
  - split; [reflexivity|]. eexists. split.
    { rewrite (ecdsa_facts.ToCompactEth_1_eq highS_signature highS_store (n - 1) eq_refl).
      reflexivity. }
    repeat split; try reflexivity. discriminate.
  - split; [reflexivity|]. split; [reflexivity|]. do 2 eexists. split.
    { rewrite (ecdsa_facts.ToCompactEth_2_eq lowS_signature lowS_store 1 eq_refl).
      rewrite (eq_refl : IsOverHalfOrder (XScalar (sig_R lowS_signature)) = true).
      reflexivity. }
    repeat split; try reflexivity. discriminate.
Qed.

(** C10.  The second listing writes the signature's scalar: for R = 2·G,
    whose x-coordinate is over half the order, and S = 1, the scalar the
    signature points to is n - 1 after the call. *)
Theorem ToCompactEth_2_overwrites_S :
  ∃ out σ',
    ToCompactEth_2 lowS_signature lowS_store = Some (out, σ') ∧
    lowS_store !! sig_S lowS_signature = Some 1 ∧
    σ' !! sig_S lowS_signature = Some (n - 1) ∧
    n - 1 ≠ 1.
Proof.
  do 2 eexists. split.
  { rewrite (ecdsa_facts.ToCompactEth_2_eq lowS_signature lowS_store 1 eq_refl).
    rewrite (eq_refl : IsOverHalfOrder (XScalar (sig_R lowS_signature)) = true).
    reflexivity. }
  repeat split; try reflexivity. discriminate.
Qed.

End secp256k1_runs.

(** * Sanity checks of the two curves and runs of the protocol *)
Module checks.
Import curve ot ot_spec ecdsa.

(** The table of the small curve holds points of y² = x³ + 7 over the
    field of 13 elements, and every point is read back from its encoding. *)
Lemma toy_on_curve (k : toy.Z7) :
  k ≠ toy.z0 → (toy.yCoord k ^ 2 - toy.xCoord k ^ 3 - 7) mod 13 = 0.
Proof. destruct k; intros Hk; try reflexivity. now destruct Hk. Qed.

Lemma toy_unmarshal_marshal (k : toy.Z7) : toy.unmarshal (toy.marshal k) = Some k.
Proof. destruct k; reflexivity. Qed.

(** On secp256k1, G and 2·G are on the curve, G + G is the point called
    [G2], and the encoding of [G2] is read back. *)
Lemma secp256k1_G_on_curve :
  (secp256k1.Gy ^ 2 - secp256k1.Gx ^ 3 - 7) mod secp256k1.p = 0 ∧
  (secp256k1.yOf secp256k1.G2 ^ 2 - secp256k1.xOf secp256k1.G2 ^ 3 - 7) mod secp256k1.p = 0.
Proof. split; vm_compute; reflexivity. Qed.

Lemma secp256k1_double_G :
  secp256k1.padd (Some (secp256k1.Gx, secp256k1.Gy)) (Some (secp256k1.Gx, secp256k1.Gy))
  = secp256k1.G2.
Proof. vm_compute. reflexivity. Qed.

Lemma secp256k1_unmarshal_marshal_G2 :
  secp256k1.unmarshal (secp256k1.marshal secp256k1.G2).1 = inl secp256k1.G2.
Proof. vm_compute. reflexivity. Qed.

(** The loop of the receiver's [Round1] stops at the shorter slice. *)
Lemma selectBytes_short :
  selectBytes Byte.xff [Byte.x01; Byte.x02; Byte.x03] [Byte.x0a; Byte.x0b]
  = [Byte.x0a; Byte.x0b; Byte.x03].
Proof. reflexivity. Qed.

Section runs.
Import toy.

(** Two executions on the small curve (b = 2, a = 3), one per choice: the
    receiver's pad next to the sender's two pads. *)
Lemma execute_choice_1 :
  match execute z3 (receiver0 true) sender0 with
  | inl e => Some (ex_pad e, Rand0 (ex_result e), Rand1 (ex_result e))
  | inr _ => None
  end
  = Some ([# Byte.x8c; Byte.x9d; Byte.xae; Byte.xbf],
          [# Byte.x90; Byte.xa1; Byte.xb2; Byte.xc3],
          [# Byte.x8c; Byte.x9d; Byte.xae; Byte.xbf]).
Proof. vm_compute. reflexivity. Qed.

Lemma execute_choice_0 :
  match execute z3 (receiver0 false) sender0 with
  | inl e => Some (ex_pad e, Rand0 (ex_result e), Rand1 (ex_result e))
  | inr _ => None
  end
  = Some ([# Byte.x8c; Byte.x9d; Byte.xae; Byte.xbf],
          [# Byte.x8c; Byte.x9d; Byte.xae; Byte.xbf],
          [# Byte.x0e; Byte.x1f; Byte.x30; Byte.x41]).
Proof. vm_compute. reflexivity. Qed.

(** A receiver that is sent a zero challenge and zero decommitments:
    [Round3] returns the error together with the pad of [Round1]. *)
Lemma Round3_error_with_pad :
  let r1 := (RandomOTReceiever_Round1 z3 (receiver0 true)).1 in
  let r2 := (RandomOTReceiever_Round2 {| Challenge := zeroArray |} r1).1 in
  (RandomOTReceiever_Round3 {| Decommit0 := zeroArray; Decommit1 := zeroArray |} r2).2
  = ([# Byte.x8c; Byte.x9d; Byte.xae; Byte.xbf],
     Some (Errorf "RandomOTReceive Round 3: incorrect decommitment")).
Proof. vm_compute. reflexivity. Qed.

(** [Verify] on the small curve rejects the signature of [toy.signature]
    for another hash. *)
Lemma Verify_other_hash :
  fst <$> Verify signature z3 [Byte.x06] signatureStore = Some false.
Proof. reflexivity. Qed.

End runs.
End checks.

(** * More about the rounds: errors, frames, repetition *)
Module ot_more.
Import curve ot ot_spec ot_facts ot_rounds.

Ltac norm_rounds :=
  lazy beta iota zeta delta
    [RandomOTReceiever_Round1 RandomOTReceiever_Round2 RandomOTReceiever_Round3
     RandomOTSender_Round1 RandomOTSender_Round2
     rcv_set_hash rcv_set_randChoice rcv_set_receivedChallenge rcv_set_hh_randChoice
     rcv_hash rcv_choice rcv_B rcv_randChoice rcv_receivedChallenge rcv_hh_randChoice
     snd_set_hash snd_set_rand0 snd_set_rand1
     snd_set_decommit0 snd_set_decommit1 snd_set_h_decommit0
     snd_hash snd_b snd_B snd_bB snd_rand0 snd_rand1
     snd_decommit0 snd_decommit1 snd_h_decommit0
     ABytes Challenge Response Decommit0 Decommit1 Rand0 Rand1
     H vxor fst snd
     blake3.Reset blake3.Write blake3.key blake3.absorbed app].

Section ot_more.
Context {crv : Curve} {bx : blake3.XOF} {par : params.Params} {sch : zksch.Sch crv}.

(** [selectBytes] keeps the length of its first slice, whatever the mask
    and the second slice. *)
Lemma selectBytes_length (mask : byte) (x y : list byte) :
  length (selectBytes mask x y) = length x.
Proof.
  revert y. induction x as [|xi x IH]; intros [|yi y]; cbn [selectBytes length]; auto.
Qed.

(** X1.  [Round1] of the receiver is all or nothing: with an error the
    session is returned as it was; without one, only the hasher and
    [randChoice] change: the hasher has absorbed the encoding of a·B after
    what it held (there is no [Reset]) and keeps its key, and [randChoice]
    is the digest of that hasher. *)
Theorem receiver_Round1_all_or_nothing (a : Scalar) (r : RandomOTReceiever) :
  let '(r', (_, err)) := RandomOTReceiever_Round1 a r in
  (err ≠ None → r' = r) ∧
  (err = None →
     rcv_hash r' = blake3.Write (MarshalBinary (Act a (rcv_B r))).1 (rcv_hash r) ∧
     rcv_randChoice r' = blake3.Digest_Read (rcv_hash r') OTBytes ∧
     rcv_choice r' = rcv_choice r ∧ rcv_B r' = rcv_B r ∧
     rcv_receivedChallenge r' = rcv_receivedChallenge r ∧
     rcv_hh_randChoice r' = rcv_hh_randChoice r).
Proof.
  destruct r as [[k ab] c B0 rc ch hh]. norm_rounds.
  destruct (MarshalBinary (ActOnBase a)) as [bsA [eA|]]; lazy beta iota;
    [split; [reflexivity|discriminate]|].
  destruct (MarshalBinary (Add (ActOnBase a) B0)) as [bsAB [eAB|]]; lazy beta iota;
    [split; [reflexivity|discriminate]|].
  destruct (MarshalBinary (Act a B0)) as [bsK [eK|]]; lazy beta iota;
    [split; [reflexivity|discriminate]|].
  split; [intros Hne; now destruct Hne|]. intros _. repeat split.
Qed.

(** X2.  What [Round1] of the receiver sends does not show the choice by
    its shape: two sessions with the same [B] and any two choices return
    the same error, and messages of the same length. *)
Theorem receiver_Round1_shape_hides_choice (a : Scalar) (r r' : RandomOTReceiever) :
  rcv_B r = rcv_B r' →
  (RandomOTReceiever_Round1 a r).2.2 = (RandomOTReceiever_Round1 a r').2.2 ∧
  length (ABytes (RandomOTReceiever_Round1 a r).2.1)
    = length (ABytes (RandomOTReceiever_Round1 a r').2.1).
Proof.
  destruct r as [[k ab] c B0 rc ch hh], r' as [[k' ab'] c' B0' rc' ch' hh'].
  cbn [rcv_B]. intros <-. norm_rounds.
  destruct (MarshalBinary (ActOnBase a)) as [bsA [eA|]]; lazy beta iota;
    [split; reflexivity|].
  destruct (MarshalBinary (Add (ActOnBase a) B0)) as [bsAB [eAB|]]; lazy beta iota;
    [split; reflexivity|].
  destruct (MarshalBinary (Act a B0)) as [bsK [eK|]]; norm_rounds;
    (split; [reflexivity|]); now rewrite !selectBytes_length.
Qed.

Lemma selectBytes_zero (x y : list byte) : selectBytes U8.zero x y = x.
Proof.
  revert y. induction x as [|xi x IH]; intros [|yi y]; cbn [selectBytes]; auto.
  now rewrite IH, U8_facts.and_zero_l, U8_facts.xor_zero_r.
Qed.

(** X3.  Without an error, the message of [Round1] of the receiver is the
    encoding of a·G for choice 0; for choice 1 it is the encoding of
    a·G + B as soon as the two encodings have the same length. *)
Theorem receiver_Round1_message (a : Scalar) (r r' : RandomOTReceiever)
    (msg : RandomOTReceiveRound1Message) :
  RandomOTReceiever_Round1 a r = (r', (msg, None)) →
  (rcv_choice r = false → ABytes msg = (MarshalBinary (ActOnBase a)).1) ∧
  (rcv_choice r = true →
   length (MarshalBinary (ActOnBase a)).1
     = length (MarshalBinary (Add (ActOnBase a) (rcv_B r))).1 →
   ABytes msg = (MarshalBinary (Add (ActOnBase a) (rcv_B r))).1).
Proof.
  destruct r as [[k ab] c B0 rc ch hh]. norm_rounds.
  destruct (MarshalBinary (ActOnBase a)) as [bsA [eA|]]; lazy beta iota; [discriminate|].
  destruct (MarshalBinary (Add (ActOnBase a) B0)) as [bsAB [eAB|]]; lazy beta iota;
    [discriminate|].
  destruct (MarshalBinary (Act a B0)) as [bsK [eK|]]; norm_rounds; [discriminate|].
  intros [= _ <-]. cbn [ABytes]. split.
  - intros ->. apply selectBytes_zero.
  - intros -> Hlen. now rewrite (selectBytes_spec true).
Qed.

(** X4.  [Round1] of the sender never hands out a challenge with an
    error: the challenge returned next to an error is the zero array.  A
    message that does not decode leaves the session as it was, and no path
    changes the key material [b], [_B], [_bB] or the key of the hasher. *)
Theorem sender_Round1_errors (msg : RandomOTReceiveRound1Message) (r : RandomOTSender) :
  let '(r', (out, err)) := RandomOTSender_Round1 msg r in
  (err ≠ None → Challenge out = zeroArray) ∧
  ((UnmarshalBinary NewPoint (ABytes msg)).2 ≠ None → r' = r ∧ err ≠ None) ∧
  snd_b r' = snd_b r ∧ snd_B r' = snd_B r ∧ snd_bB r' = snd_bB r ∧
  blake3.key (snd_hash r') = blake3.key (snd_hash r).
Proof.
  destruct r as [[k ab] b0 B0 bB0 ? ? ? ? ?], msg as [bs]. norm_rounds.
  destruct (UnmarshalBinary NewPoint bs) as [T [eT|]]; lazy beta iota;
    [|destruct (MarshalBinary (Act b0 T)) as [bs0 [e0|]]; lazy beta iota;
      [|destruct (MarshalBinary (Sub (Act b0 T) bB0)) as [bs1 [e1|]]; lazy beta iota]];
    (split;
     [ first [intros _; reflexivity | intros Hne; exfalso; apply Hne; reflexivity]
     | split;
       [ first [intros _; split; [reflexivity|discriminate]
               | intros Hne; exfalso; apply Hne; reflexivity]
       | repeat split; reflexivity ] ]).
Qed.

(** X5.  The commitments of the sender.  When [Round1] of the sender
    returns no error, the session holds decommit0 = H(rand0),
    decommit1 = H(rand1) and h_decommit0 = H(decommit0), and the challenge
    is H(decommit1) XOR h_decommit0.  Whatever response [Round2] is then
    given, if it returns no error the decommitments it reveals are the
    hashes of the two pads of its result, and their hashes XOR to the
    challenge that was sent. *)
Theorem sender_commitments (msg : RandomOTReceiveRound1Message) (r r' : RandomOTSender)
    (out : RandomOTSendRound1Message) (resp : RandomOTReceiveRound2Message) :
  RandomOTSender_Round1 msg r = (r', (out, None)) →
  let h := snd_hash r in
  snd_decommit0 r' = H h (vec_to_list (snd_rand0 r')) ∧
  snd_decommit1 r' = H h (vec_to_list (snd_rand1 r')) ∧
  snd_h_decommit0 r' = H h (vec_to_list (snd_decommit0 r')) ∧
  Challenge out = vxor (H h (vec_to_list (snd_decommit1 r'))) (snd_h_decommit0 r') ∧
  let '(_, (reveal, res, err)) := RandomOTSender_Round2 resp r' in
  (err = None →
     Decommit0 reveal = H h (vec_to_list (Rand0 res)) ∧
     Decommit1 reveal = H h (vec_to_list (Rand1 res)) ∧
     vxor (H h (vec_to_list (Decommit0 reveal))) (H h (vec_to_list (Decommit1 reveal)))
       = Challenge out).
Proof.
  rewrite sender_Round2_eq.
  destruct r as [[k ab] b0 B0 bB0 ? ? ? ? ?], msg as [bs]. norm_rounds.
  destruct (UnmarshalBinary NewPoint bs) as [T [eT|]]; lazy beta iota; [discriminate|].
  destruct (MarshalBinary (Act b0 T)) as [bs0 [e0|]]; lazy beta iota; [discriminate|].
  destruct (MarshalBinary (Sub (Act b0 T) bB0)) as [bs1 [e1|]]; lazy beta iota;
    [discriminate|].
  intros [= <- <-]. norm_rounds. repeat split.
  destruct (bool_decide _); norm_rounds; [|discriminate].
  intros _. repeat split. apply (vxor_comm (blake3.Digest_Read _ _)).
Qed.

(** X6.  Handling a message twice changes nothing: [Round1] of the sender,
    [Round2] and [Round3] of the receiver, run again on the session they
    returned and the same message, return the same session and the same
    values, on the error paths too. *)
Theorem rounds_idempotent :
  (∀ (msg : RandomOTReceiveRound1Message) (r : RandomOTSender),
     RandomOTSender_Round1 msg (RandomOTSender_Round1 msg r).1
     = RandomOTSender_Round1 msg r) ∧
  (∀ (msg : RandomOTSendRound1Message) (r : RandomOTReceiever),
     RandomOTReceiever_Round2 msg (RandomOTReceiever_Round2 msg r).1
     = RandomOTReceiever_Round2 msg r) ∧
  (∀ (msg : RandomOTSendRound2Message) (r : RandomOTReceiever),
     RandomOTReceiever_Round3 msg (RandomOTReceiever_Round3 msg r).1
     = RandomOTReceiever_Round3 msg r).
Proof.
  split; [|split].
  - intros [bs] [[k ab] b0 B0 bB0 ? ? ? ? ?]. norm_rounds.
    destruct (UnmarshalBinary NewPoint bs) as [T [eT|]] eqn:ET; norm_rounds;
      rewrite ?ET; norm_rounds; [reflexivity|].
    destruct (MarshalBinary (Act b0 T)) as [bs0 [e0|]] eqn:E0; norm_rounds;
      rewrite ?ET; norm_rounds; rewrite ?E0; norm_rounds; [reflexivity|].
    destruct (MarshalBinary (Sub (Act b0 T) bB0)) as [bs1 [e1|]] eqn:E1; norm_rounds;
      rewrite ?ET; norm_rounds; rewrite ?E0; norm_rounds; rewrite ?E1; norm_rounds;
      reflexivity.
  - intros msg r. rewrite !receiver_Round2_eq. destruct r as [[k ab] c B0 rc ch hh].
    norm_rounds. reflexivity.
  - intros [d0 d1] [[k ab] c B0 rc ch hh]. norm_rounds.
    destruct (negb (subtle.ConstantTimeCompare (vec_to_list ch) _ =? 1)) eqn:E1;
      norm_rounds; rewrite ?E1; [reflexivity|].
    destruct (negb (subtle.ConstantTimeCompare _ (vec_to_list hh) =? 1)) eqn:E2;
      norm_rounds; rewrite ?E1, ?E2; reflexivity.
Qed.

(** X7.  [Round2] of the receiver, for any challenge, honest or not: it
    caches hh = H(H(randChoice)) and the challenge, and the response is hh
    for choice 0 and hh XOR challenge for choice 1, so that removing the
    challenge again (for choice 1) always gives hh back. *)
Theorem receiver_Round2_response (msg : RandomOTSendRound1Message) (r : RandomOTReceiever) :
  let hh := H (rcv_hash r) (vec_to_list (H (rcv_hash r) (vec_to_list (rcv_randChoice r)))) in
  let '(r', out) := RandomOTReceiever_Round2 msg r in
  rcv_hh_randChoice r' = hh ∧
  rcv_receivedChallenge r' = Challenge msg ∧
  Response out = (if rcv_choice r then vxor hh (Challenge msg) else hh) ∧
  (if rcv_choice r then vxor (Challenge msg) (Response out) else Response out) = hh.
Proof.
  intros hh. rewrite receiver_Round2_eq. fold hh. cbn [rcv_hh_randChoice
    rcv_receivedChallenge Response]. repeat split.
  destruct (rcv_choice r); [|reflexivity].
  rewrite (vxor_comm hh). apply vxor_cancel.
Qed.

(** X8.  [Round2] and [Round3] of the receiver never touch the choice, the
    key [B], the pad [randChoice] or the key of the hasher; [Round3] also
    keeps the stored challenge and [hh_randChoice], with or without an
    error. *)
Theorem receiver_rounds_frame :
  (∀ (msg : RandomOTSendRound1Message) (r : RandomOTReceiever),
     let r' := (RandomOTReceiever_Round2 msg r).1 in
     rcv_choice r' = rcv_choice r ∧ rcv_B r' = rcv_B r ∧
     rcv_randChoice r' = rcv_randChoice r ∧
     blake3.key (rcv_hash r') = blake3.key (rcv_hash r)) ∧
  (∀ (msg : RandomOTSendRound2Message) (r : RandomOTReceiever),
     let r' := (RandomOTReceiever_Round3 msg r).1 in
     rcv_choice r' = rcv_choice r ∧ rcv_B r' = rcv_B r ∧
     rcv_randChoice r' = rcv_randChoice r ∧
     blake3.key (rcv_hash r') = blake3.key (rcv_hash r) ∧
     rcv_receivedChallenge r' = rcv_receivedChallenge r ∧
     rcv_hh_randChoice r' = rcv_hh_randChoice r).
Proof.
  split.
  - intros msg r. rewrite receiver_Round2_eq. destruct r as [[k ab] c B0 rc ch hh].
    repeat split.
  - intros msg r. rewrite receiver_Round3_eq. destruct r as [[k ab] c B0 rc ch hh].
    destruct (_ && _); repeat split.
Qed.

(** X9.  What the receiver knows when [Round3] returns no error, whoever
    the sender was.  After [Round1] and [Round2] on any challenge, if
    [Round3] accepts the decommitments, then their hashes XOR to the
    challenge that [Round2] was given, and the hash of the decommitment
    selected by the choice is H(H(pad)) for the pad returned, which is the
    pad of [Round1]. *)
Theorem receiver_Round3_acceptance (a : Scalar) (c : RandomOTSendRound1Message)
    (msg : RandomOTSendRound2Message) (r : RandomOTReceiever) :
  let h := rcv_hash r in
  let r1 := (RandomOTReceiever_Round1 a r).1 in
  let r2 := (RandomOTReceiever_Round2 c r1).1 in
  let '(_, (pad, err)) := RandomOTReceiever_Round3 msg r2 in
  err = None →
  pad = rcv_randChoice r1 ∧
  vxor (H h (vec_to_list (Decommit0 msg))) (H h (vec_to_list (Decommit1 msg)))
    = Challenge c ∧
  H h (vec_to_list (if rcv_choice r then Decommit1 msg else Decommit0 msg))
    = H h (vec_to_list (H h (vec_to_list pad))).
Proof.
  intros h r1 r2.
  pose proof (receiver_Round1_all_or_nothing a r) as H1.
  destruct (RandomOTReceiever_Round1 a r) as [r1' [m1 e1]] eqn:E1.
  assert (blake3.key (rcv_hash r1) = blake3.key h ∧ rcv_choice r1 = rcv_choice r) as [Hk Hc].
  { subst r1 h. cbn [fst]. destruct H1 as [Herr Hok]. destruct e1 as [e|].
    - rewrite Herr by discriminate. now split.
    - destruct (Hok eq_refl) as (Hh & _ & Hc & _). rewrite Hh. now split. }
  clearbody r1. clear H1 E1 r1' m1 e1.
  subst r2. rewrite receiver_Round2_eq. cbn [fst]. rewrite receiver_Round3_eq.
  cbn [rcv_hash rcv_choice rcv_randChoice rcv_receivedChallenge rcv_hh_randChoice].
  rewrite Hc.
  set (h1 := rcv_hash r1) in *.
  assert (∀ x y, H (blake3.Write y (blake3.Reset h1)) x = H h x) as HH
    by (intros x y; apply H_key; cbn; exact Hk).
  assert (∀ x, H h1 x = H h x) as HH1 by (intros x; now apply H_key).
  rewrite !HH, !HH1.
  case_bool_decide as Hc1; cbn [andb]; [|discriminate].
  case_bool_decide as Hc2; [|discriminate].
  intros _. split; [reflexivity|]. split; [now rewrite Hc1|].
  now destruct (rcv_choice r).
Qed.

(** X10.  The two halves of a setup agree.  [RandomOTSetupSend] puts the
    same point B = b·G into the message and into the sender's setup,
    together with b and b·B; and when [RandomOTSetupReceive] accepts that
    message, the receiver's setup holds this B too. *)
Theorem setup_halves_agree (hash : zksch.Hash) (b k : Scalar) :
  let '(msg, ss) := RandomOTSetupSend hash b k in
  B msg = ActOnBase b ∧ ss_B ss = B msg ∧ ss_b ss = b ∧
  ss_bB ss = Act (ss_b ss) (ss_B ss) ∧
  BProof msg = zksch.NewProof hash (B msg) b k ∧
  ∀ rs, RandomOTSetupReceive hash msg = (Some rs, None) → rs_B rs = ss_B ss.
Proof.
  unfold RandomOTSetupSend, RandomOTSetupReceive. cbn [B BProof ss_B ss_b ss_bB].
  repeat split. intros rs.
  destruct (zksch.Verify _ _ _); cbn [negb]; [|discriminate].
  now intros [= <-].
Qed.


End ot_more.
End ot_more.

(** * More about package [ecdsa]: layout and frames *)
Module ecdsa_more.
Section ecdsa_more.
Context {crv : Curve}.
Import curve ecdsa ecdsa_empty ecdsa_facts.

Lemma layout_length (x : byte) (l1 l2 : list byte) :
  length (<[64%nat := x]> (copy (copy (replicate compactSigSize U8.zero) 0 32 l1) 32 64 l2))
  = 65%nat.
Proof.
  rewrite length_insert, !copy_length; rewrite ?copy_length;
    rewrite ?length_replicate; unfold compactSigSize; lia.
Qed.

Lemma layout_head (x : byte) (l1 l2 : list byte) :
  length l1 = 32%nat →
  take 32 (<[64%nat := x]> (copy (copy (replicate compactSigSize U8.zero) 0 32 l1) 32 64 l2))
  = l1.
Proof.
  intros Hl. rewrite take_insert_ge by lia.
  assert (copy (replicate compactSigSize U8.zero) 0 32 l1
          = l1 ++ drop 32 (replicate compactSigSize U8.zero)) as ->.
  { unfold copy. rewrite Hl. change (Nat.min (32 - 0) 32) with 32%nat.
    rewrite take_0, (take_ge l1) by lia. reflexivity. }
  unfold copy at 1.
  rewrite (take_app_length' l1) by (symmetry; exact Hl).
  apply take_app_length'. symmetry; exact Hl.
Qed.

Lemma layout_last (x : byte) (l1 l2 : list byte) :
  (<[64%nat := x]> (copy (copy (replicate compactSigSize U8.zero) 0 32 l1) 32 64 l2))
    !! 64%nat = Some x.
Proof.
  apply list_lookup_insert_eq.
  rewrite !copy_length; rewrite ?copy_length; rewrite ?length_replicate;
    unfold compactSigSize; lia.
Qed.

(** X13.  The layout both listings of [ToCompactEth] produce: whenever
    either returns, the result has exactly 65 bytes, whatever [XBytes] and
    [Bytes] return; its first 32 bytes are [XBytes] of R when that has 32
    bytes; and its last byte V is 0 or 1 when the parity bit of R is. *)
Theorem ToCompactEth_layout (sig : Signature) (σ σ' : gmap ref Scalar) (out : list byte) :
  ToCompactEth_1 sig σ = Some (out, σ') ∨ ToCompactEth_2 sig σ = Some (out, σ') →
  length out = 65%nat ∧
  (length (XBytes (sig_R sig)) = 32%nat → take 32 out = XBytes (sig_R sig)) ∧
  (IsOddYBit (sig_R sig) = 0 ∨ IsOddYBit (sig_R sig) = 1 →
   out !! 64%nat = Some Byte.x00 ∨ out !! 64%nat = Some Byte.x01).
Proof.
  assert (∀ x l2,
    IsOddYBit (sig_R sig) = 0 ∨ IsOddYBit (sig_R sig) = 1 →
    x = U8.of_int (IsOddYBit (sig_R sig))
      ∨ x = byte.xor (U8.of_int (IsOddYBit (sig_R sig))) U8.one →
    out = <[64%nat := x]>
            (copy (copy (replicate compactSigSize U8.zero) 0 32 (XBytes (sig_R sig)))
               32 64 l2) →
    out !! 64%nat = Some Byte.x00 ∨ out !! 64%nat = Some Byte.x01) as Hlast.
  { intros x l2 Hbit Hx ->. rewrite layout_last.
    destruct Hbit as [Hb|Hb]; rewrite Hb in Hx; destruct Hx as [-> | ->];
      (left; reflexivity) || (right; reflexivity). }
  intros Hret.
  assert (∃ x l2,
    (x = U8.of_int (IsOddYBit (sig_R sig))
     ∨ x = byte.xor (U8.of_int (IsOddYBit (sig_R sig))) U8.one) ∧
    out = <[64%nat := x]>
            (copy (copy (replicate compactSigSize U8.zero) 0 32 (XBytes (sig_R sig)))
               32 64 l2)) as (x & l2 & Hx & Hout).
  { destruct (σ !! sig_S sig) as [s|] eqn:Hs.
    - rewrite (ToCompactEth_1_eq _ _ _ Hs), (ToCompactEth_2_eq _ _ _ Hs) in Hret.
      destruct Hret as [[= <- _]|H2].
      + eexists _, _. split; [|reflexivity]. destruct (IsOverHalfOrder s); auto.
      + destruct (IsOverHalfOrder (XScalar (sig_R sig))); injection H2 as <- _;
          eexists _, _; (split; [|reflexivity]); auto.
    - exfalso. revert Hret.
      unfold ToCompactEth_1, ToCompactEth_2, Scalar_Bytes, Scalar_Negate, load, store.
      unfold mbind, M_bind, mret, M_ret.
      destruct (IsOverHalfOrder (XScalar (sig_R sig)));
        repeat (rewrite ?Hs; lazy beta iota); intros [|]; discriminate. }
  split; [|split].
  - rewrite Hout. apply layout_length.
  - intros Hl. rewrite Hout. now apply layout_head.
  - intros Hbit. exact (Hlast x l2 Hbit Hx Hout).
Qed.

(** X14.  For a signature whose scalar is live, both listings of
    [ToCompactEth] return; neither changes a scalar other than the
    signature's own, and the first listing changes none at all. *)
Theorem ToCompactEth_frame (sig : Signature) (σ : gmap ref Scalar) (s : Scalar) :
  σ !! sig_S sig = Some s →
  (∃ out, ToCompactEth_1 sig σ = Some (out, σ)) ∧
  (∃ out σ', ToCompactEth_2 sig σ = Some (out, σ') ∧
             ∀ q, q ≠ sig_S sig → σ' !! q = σ !! q).
Proof.
  intros Hs. split.
  - eexists. apply (ToCompactEth_1_eq _ _ _ Hs).
  - rewrite (ToCompactEth_2_eq _ _ _ Hs).
    destruct (IsOverHalfOrder (XScalar (sig_R sig))); eexists _, _; (split; [reflexivity|]).
    + intros q Hq. now rewrite lookup_insert_ne.
    + reflexivity.
Qed.

(** X15.  [Verify] works on a scalar of its own: for a signature whose
    scalar is live it returns, every scalar that was live keeps its value,
    and the only pointer it adds is one that was not live. *)
Theorem Verify_frame (sig : Signature) (X : Point) (hash : list byte)
    (σ : gmap ref Scalar) (s : Scalar) :
  σ !! sig_S sig = Some s →
  ∃ ok σ' p,
    Verify sig X hash σ = Some (ok, σ') ∧
    σ !! p = None ∧
    dom σ' = {[ p ]} ∪ dom σ ∧
    ∀ q v, σ !! q = Some v → σ' !! q = Some v.
Proof.
  intros Hs.
  assert (fresh (dom σ) ≠ sig_S sig) as Hfresh.
  { intros Heq. apply (is_fresh (dom σ)). rewrite Heq. apply elem_of_dom. eauto. }
  eexists _, (<[fresh (dom σ) := Invert s]> σ), (fresh (dom σ)).
  split; [|split; [|split]].
  - unfold Verify, Curve_NewScalar, Scalar_Set, Scalar_Invert, Scalar_Act, load, store.
    unfold mbind, M_bind, mret, M_ret.
    repeat (rewrite ?lookup_insert_eq, ?insert_insert_eq;
            rewrite ?(lookup_insert_ne _ _ _ _ Hfresh), ?Hs; lazy beta iota).
    reflexivity.
  - apply not_elem_of_dom, is_fresh.
  - apply dom_insert_L.
  - intros q v Hq. rewrite lookup_insert_ne; [exact Hq|].
    intros <-. apply (is_fresh (dom σ)), elem_of_dom. eauto.
Qed.


End ecdsa_more.
End ecdsa_more.

(** * The two pads of an honest execution *)
Module ot_pads.
Section ot_pads.
Context {crv : Curve} {bx : blake3.XOF} {par : params.Params} {sch : zksch.Sch crv}.
Context {laws : curve.Laws crv}.
Import curve ot ot_spec ot_facts ot_rounds.

(** X12.  In an honest execution (the setting of [honest_execution_pad])
    the first two rounds return without error, and with the shared point
    K = a·B = a·(b·G): the sender's pad of the receiver's choice is the
    receiver's pad, the hash of the encoding of K; the sender's other pad
    is the hash of the encoding of K − b·B for choice 0 and of K + b·B for
    choice 1. *)
Theorem honest_pads (hash : zksch.Hash) (b k a : Scalar) (nonce : list byte)
    (choice : safenum.Choice) (rs : RandomOTReceiveSetup)
    (r0 : RandomOTReceiever) (s0 : RandomOTSender) :
  RandomOTSetupReceive hash (RandomOTSetupSend hash b k).1 = (Some rs, None) →
  NewRandomOTReceiver nonce rs choice = Some r0 →
  NewRandomOTSender nonce (RandomOTSetupSend hash b k).2 = Some s0 →
  wire_ok a b choice →
  let K := Act a (ActOnBase b) in
  let bB := Act b (ActOnBase b) in
  ∃ r1 m1 s1 c1,
    RandomOTReceiever_Round1 a r0 = (r1, (m1, None)) ∧
    RandomOTSender_Round1 m1 s0 = (s1, (c1, None)) ∧
    rcv_randChoice r1 = H (snd_hash s0) (MarshalBinary K).1 ∧
    (if choice then snd_rand1 s1 else snd_rand0 s1) = rcv_randChoice r1 ∧
    (if choice then snd_rand0 s1 else snd_rand1 s1)
      = H (snd_hash s0) (MarshalBinary (if choice then Add K bB else Sub K bB)).1.
Proof.
  intros Hrs Hr0 Hs0 (HA & HAB & Hlen & Hdec & HK & HP0 & HP1) K bB.
  destruct (ot_honest.sessions_of_setup _ _ _ _ _ _ _ _ Hrs Hr0 Hs0) as [-> ->].
  set (r0 := {| rcv_hash := _ |}). set (s0 := {| snd_hash := _ |}).
  pose proof (receiver_Round1_ok a r0 HA HAB HK) as R1. cbn zeta in R1.
  rewrite selectBytes_spec in R1 by exact Hlen.
  set (T := transmitted a b choice) in *.
  assert ((if rcv_choice r0
           then (MarshalBinary (Add (ActOnBase a) (rcv_B r0))).1
           else (MarshalBinary (ActOnBase a)).1) = (MarshalBinary T).1) as HT
    by (unfold T, transmitted; cbn [rcv_choice rcv_B r0]; now destruct choice).
  rewrite HT in R1. clear HT.
  pose proof (sender_Round1_ok {| ABytes := (MarshalBinary T).1 |} s0 T Hdec HP0 HP1) as S1.
  cbn zeta in S1.
  do 4 eexists. split; [exact R1|]. split; [exact S1|].
  cbn [rcv_randChoice rcv_set_randChoice snd_rand0 snd_rand1 snd_hash snd_b snd_bB
       rcv_B rcv_hash r0 s0].
  assert (Act b T = if choice then Add K bB else K) as HbT.
  { unfold T, transmitted, K, bB. destruct choice.
    - rewrite Act_Add. f_equal. apply Act_ActOnBase.
    - apply Act_ActOnBase. }
  assert (Sub (Act b T) bB = if choice then K else Sub K bB) as HbTB.
  { rewrite HbT. destruct choice; [apply Sub_Add|reflexivity]. }
  fold bB. rewrite HbTB, HbT.
  split; [reflexivity|]. destruct choice; split; reflexivity.
Qed.

End ot_pads.
End ot_pads.

(** * The added statements at concrete inputs, on the small curve *)
Module more_runs.
Import curve ot ot_spec ecdsa toy.

Lemma receiver_Round1_shape_hides_choice_toy :
  (RandomOTReceiever_Round1 z3 (receiver0 true)).2.2
    = (RandomOTReceiever_Round1 z3 (receiver0 false)).2.2 ∧
  length (ABytes (RandomOTReceiever_Round1 z3 (receiver0 true)).2.1)
    = length (ABytes (RandomOTReceiever_Round1 z3 (receiver0 false)).2.1).
Proof.
  apply (ot_more.receiver_Round1_shape_hides_choice (crv := toy.curve) (bx := toy.xof)
           (par := toy.params) z3 (receiver0 true) (receiver0 false)).
  reflexivity.
Defined.

Lemma receiver_Round1_message_toy :
  ABytes (RandomOTReceiever_Round1 z3 (receiver0 true)).2.1 = marshal z5.
Proof.
  pose proof (ot_more.receiver_Round1_message (crv := toy.curve) (bx := toy.xof)
                (par := toy.params) (z3 : Scalar) (receiver0 true)
                (RandomOTReceiever_Round1 z3 (receiver0 true)).1
                (RandomOTReceiever_Round1 z3 (receiver0 true)).2.1 eq_refl) as [_ H1].
  apply H1; reflexivity.
Defined.

Lemma sender_commitments_toy :
  let s1 := (RandomOTSender_Round1 {| ABytes := marshal z5 |} sender0).1 in
  snd_decommit0 s1 = H (snd_hash sender0) (vec_to_list (snd_rand0 s1)) ∧
  snd_decommit1 s1 = H (snd_hash sender0) (vec_to_list (snd_rand1 s1)).
Proof.
  intros s1.
  pose proof (ot_more.sender_commitments (crv := toy.curve) (bx := toy.xof)
                (par := toy.params) {| ABytes := marshal z5 |} sender0 s1
                (RandomOTSender_Round1 {| ABytes := marshal z5 |} sender0).2.1
                {| Response := zeroArray |} eq_refl) as (H0 & H1 & _).
  split; assumption.
Defined.

(** The receiver of an execution with the honest sender: [Round3] accepts. *)
Lemma receiver_Round3_acceptance_toy :
  let r1 := (RandomOTReceiever_Round1 z3 (receiver0 true)).1 in
  let m1 := (RandomOTReceiever_Round1 z3 (receiver0 true)).2.1 in
  let s1 := (RandomOTSender_Round1 m1 sender0).1 in
  let c1 := (RandomOTSender_Round1 m1 sender0).2.1 in
  let r2 := (RandomOTReceiever_Round2 c1 r1).1 in
  let m2 := (RandomOTReceiever_Round2 c1 r1).2 in
  let m3 := (RandomOTSender_Round2 m2 s1).2.1.1 in
  (RandomOTReceiever_Round3 m3 r2).2.2 = None ∧
  vxor (H (rcv_hash (receiver0 true)) (vec_to_list (Decommit0 m3)))
       (H (rcv_hash (receiver0 true)) (vec_to_list (Decommit1 m3)))
    = Challenge c1.
Proof.
  intros r1 m1 s1 c1 r2 m2 m3.
  assert ((RandomOTReceiever_Round3 m3 r2).2.2 = None) as Herr by reflexivity.
  split; [exact Herr|].
  pose proof (ot_more.receiver_Round3_acceptance (crv := toy.curve) (bx := toy.xof)
                (par := toy.params) (z3 : Scalar) c1 m3 (receiver0 true)) as Hacc.
  cbn zeta in Hacc. fold r1 r2 in Hacc.
  destruct (RandomOTReceiever_Round3 m3 r2) as [r3 [pad err]].
  cbn [snd] in Herr. exact (proj1 (proj2 (Hacc Herr))).
Defined.

Lemma honest_pads_toy :
  ∃ r1 m1 s1 c1,
    RandomOTReceiever_Round1 z3 (receiver0 true) = (r1, (m1, None)) ∧
    RandomOTSender_Round1 m1 sender0 = (s1, (c1, None)) ∧
    rcv_randChoice r1 = H (snd_hash sender0) (marshal z6) ∧
    snd_rand1 s1 = rcv_randChoice r1 ∧
    snd_rand0 s1 = H (snd_hash sender0) (marshal z3).
Proof.
  apply (ot_pads.honest_pads (crv := toy.curve) (bx := toy.xof)
           (par := toy.params) (sch := toy.sch) (laws := toy_facts.laws)
           transcript z2 z3 z3 nonce true receiveSetup (receiver0 true) sender0).
  - reflexivity.
  - reflexivity.
  - reflexivity.
  - repeat split; reflexivity.
Defined.

Lemma ToCompactEth_layout_toy :
  ∃ out σ',
    ToCompactEth_1 signature signatureStore = Some (out, σ') ∧
    length out = 65%nat ∧ take 32 out = XBytes z2 ∧
    (out !! 64%nat = Some Byte.x00 ∨ out !! 64%nat = Some Byte.x01).
Proof.
  pose proof (ecdsa_facts.ToCompactEth_1_eq (crv := toy.curve)
                signature signatureStore z4 eq_refl) as Hret.
  eexists _, _. split; [exact Hret|].
  pose proof (ecdsa_more.ToCompactEth_layout (crv := toy.curve)
                signature signatureStore _ _ (or_introl Hret)) as (Hlen & Hhead & Hlast).
  split; [exact Hlen|]. split; [apply Hhead; reflexivity|].
  apply Hlast. right. reflexivity.
Defined.

Lemma ToCompactEth_frame_toy :
  (∃ out, ToCompactEth_1 signature signatureStore = Some (out, signatureStore)) ∧
  (∃ out σ', ToCompactEth_2 signature signatureStore = Some (out, σ') ∧
             ∀ q, q ≠ 1%positive → σ' !! q = signatureStore !! q).
Proof.
  apply (ecdsa_more.ToCompactEth_frame (crv := toy.curve) signature signatureStore z4).
  reflexivity.
Defined.

Lemma Verify_frame_toy :
  ∃ ok σ' p,
    Verify signature z3 [Byte.x05] signatureStore = Some (ok, σ') ∧
    signatureStore !! p = None ∧
    dom σ' = {[ p ]} ∪ dom signatureStore ∧
    ∀ q v, signatureStore !! q = Some v → σ' !! q = Some v.
Proof.
  apply (ecdsa_more.Verify_frame (crv := toy.curve)
           signature z3 [Byte.x05] signatureStore z4).
  reflexivity.
Defined.

End more_runs.
